(** * goscript: the execution-harness engine, embedded in Rocq

    A shallow embedding of [goscript.go]: the signature extractor
    ([processScript], [extractArguments]), the diagnostic remapper
    ([processOutput], [init]) and the process manager / call channel
    ([New], [Execute], [cmdErr], [Close]) over an explicit model of the
    child process and its streams. *)

From Stdlib Require Import ZArith Lia Bool Ascii String DecimalString.
From stdpp Require Import base list.

Open Scope string_scope.
Open Scope Z_scope.

(** ** Go strings

    A Go string is a sequence of bytes; [string] is a sequence of [ascii],
    one per byte. *)

Module GoStrings.

Definition byte (n : N) : ascii := ascii_of_N n.

Definition tab : string := String (byte 9) "".
Definition nl : string := String (byte 10) "".
Definition quote : string := String (byte 34) "".

(** [len(s)] as a Go int. *)
Definition len (s : string) : Z := Z.of_nat (String.length s).

(** [strings.HasPrefix(s, prefix)]. *)
Definition HasPrefix (s prefix : string) : bool := String.prefix prefix s.

(** [strings.Contains(s, substr)]. *)
Fixpoint Contains (s substr : string) : bool :=
  HasPrefix s substr ||
  match s with
  | EmptyString => false
  | String _ s' => Contains s' substr
  end.

(** [strings.Split(s, sep)] for a one-byte separator, which is what every
    call site of the package passes; [sep] is that byte.  The result is
    never empty: a string without the separator is returned whole. *)
Fixpoint Split (s : string) (sep : ascii) : list string :=
  match s with
  | EmptyString => [EmptyString]
  | String c s' =>
      if Ascii.eqb c sep then EmptyString :: Split s' sep
      else match Split s' sep with
           | h :: t => String c h :: t
           | [] => [String c EmptyString]
           end
  end.

(** [strings.Join(elems, sep)]. *)
Definition Join (elems : list string) (sep : string) : string :=
  String.concat sep elems.

Definition rev (s : string) : string :=
  string_of_list_ascii (List.rev (list_ascii_of_string s)).

(** The UTF-8 encodings of the runes for which [unicode.IsSpace] holds:
    the six ASCII ones, U+0085, U+00A0, U+1680, U+2000..U+200A, U+2028,
    U+2029, U+202F, U+205F and U+3000.  Go rejects over-long encodings, so
    these byte sequences are the only ones that decode to a space. *)
Definition spaceRunes : list (list N) :=
  [ [9]; [10]; [11]; [12]; [13]; [32];
    [194; 133]; [194; 160];
    [225; 154; 128];
    [226; 128; 128]; [226; 128; 129]; [226; 128; 130]; [226; 128; 131];
    [226; 128; 132]; [226; 128; 133]; [226; 128; 134]; [226; 128; 135];
    [226; 128; 136]; [226; 128; 137]; [226; 128; 138];
    [226; 128; 168]; [226; 128; 169]; [226; 128; 175];
    [226; 129; 159];
    [227; 128; 128] ]%N.

Definition encode (bs : list N) : string :=
  string_of_list_ascii (List.map byte bs).

(** Remove [p] from the front of [s], when it is there. *)
Fixpoint stripPrefix (p s : string) : option string :=
  match p, s with
  | EmptyString, _ => Some s
  | String a p', String b s' => if Ascii.eqb a b then stripPrefix p' s' else None
  | String _ _, EmptyString => None
  end.

Fixpoint stripAny (ps : list string) (s : string) : option string :=
  match ps with
  | [] => None
  | p :: ps' =>
      match stripPrefix p s with
      | Some r => Some r
      | None => stripAny ps' s
      end
  end.

(** Drop leading runes taken from [ps]; [fuel] bounds the number of runes. *)
Fixpoint trimLeading (ps : list string) (fuel : nat) (s : string) : string :=
  match fuel with
  | O => s
  | S fuel' =>
      match stripAny ps s with
      | Some r => trimLeading ps fuel' r
      | None => s
      end
  end.

(** [strings.TrimLeftFunc(s, unicode.IsSpace)]. *)
Definition TrimLeft (s : string) : string :=
  trimLeading (List.map encode spaceRunes) (String.length s) s.

(** [strings.TrimRightFunc(s, unicode.IsSpace)]: the same scan from the
    end, on the reversed bytes. *)
Definition TrimRight (s : string) : string :=
  rev (trimLeading (List.map (fun bs => encode (List.rev bs)) spaceRunes)
         (String.length s) (rev s)).

(** [strings.TrimSpace(s)]. *)
Definition TrimSpace (s : string) : string := TrimRight (TrimLeft s).

End GoStrings.

Export GoStrings.

(** ** Go's [int] and [strconv]

    [int] is taken to be 64 bits wide; arithmetic on it wraps around. *)

Module GoInt.

Definition intSize : Z := 64.
Definition minInt : Z := - 2 ^ (intSize - 1).
Definition maxInt : Z := 2 ^ (intSize - 1) - 1.

(** The value of an [int] computation whose mathematical result is [z]. *)
Definition wrap (z : Z) : Z :=
  (z - minInt) mod 2 ^ intSize + minInt.

Definition sub (a b : Z) : Z := wrap (a - b).

Definition isDigit (c : ascii) : bool :=
  (48 <=? N_of_ascii c)%N && (N_of_ascii c <=? 57)%N.

(** The value of a string of decimal digits, read after the digits whose
    value is [acc]; [None] when a byte is not a digit. *)
Fixpoint digits (s : string) (acc : Z) : option Z :=
  match s with
  | EmptyString => Some acc
  | String c s' =>
      if isDigit c
      then digits s' (acc * 10 + (Z.of_N (N_of_ascii c) - 48))
      else None
  end.

Definition inRange (z : Z) : option Z :=
  if (minInt <=? z) && (z <=? maxInt) then Some z else None.

(** [strconv.Atoi(s)]: an optional sign and at least one decimal digit,
    the value within [int]; [None] stands for a non-nil error. *)
Definition Atoi (s : string) : option Z :=
  match s with
  | EmptyString => None
  | String c s' =>
      if Ascii.eqb c "-" then
        match s' with
        | EmptyString => None
        | _ => match digits s' 0 with
               | Some n => inRange (- n)
               | None => None
               end
        end
      else if Ascii.eqb c "+" then
        match s' with
        | EmptyString => None
        | _ => match digits s' 0 with
               | Some n => inRange n
               | None => None
               end
        end
      else match digits s 0 with
           | Some n => inRange n
           | None => None
           end
  end.

(** [strconv.Itoa(i)]. *)
Definition Itoa (i : Z) : string :=
  NilZero.string_of_int (Z.to_int i).

End GoInt.

Export GoInt.

(** ** [bufio.Scanner] with the default split function [bufio.ScanLines] *)

Module Scanner.

(** [bufio.MaxScanTokenSize]: the scanner's buffer never grows beyond it. *)
Definition MaxScanTokenSize : Z := 64 * 1024.

(** The text cut after each newline byte; a last line without a newline
    counts, an empty remainder does not. *)
Fixpoint rawLines (s : string) : list string :=
  match s with
  | EmptyString => []
  | String c s' =>
      if Ascii.eqb c (byte 10) then EmptyString :: rawLines s'
      else match rawLines s' with
           | h :: t => String c h :: t
           | [] => [String c EmptyString]
           end
  end.

(** [dropCR]: one trailing carriage return is removed from a token. *)
Fixpoint dropCR (s : string) : string :=
  match s with
  | EmptyString => EmptyString
  | String c EmptyString => if Ascii.eqb c (byte 13) then EmptyString else s
  | String c s' => String c (dropCR s')
  end.

(** A line is delivered when it fits the buffer together with its newline;
    a full buffer without a newline ends the scan with [ErrTooLong]. *)
Definition fits (raw : string) : bool :=
  len raw <? MaxScanTokenSize.

(** The tokens [s.Text()] takes while [s.Scan()] returns true. *)
Fixpoint tokens (raw : list string) : list string :=
  match raw with
  | [] => []
  | l :: rest => if fits l then dropCR l :: tokens rest else []
  end.

Definition Scan (text : string) : list string := tokens (rawLines text).

(** Every line of a text, whatever its length. *)
Definition Lines (text : string) : list string := List.map dropCR (rawLines text).

End Scanner.

Export Scanner.

(** ** Error values *)

(** [*os.ProcessState]: how a child process ended. *)
Inductive ProcessState : Type :=
| Exit (status : Z)
| Signaled (signal : string).

Definition Exited (ps : ProcessState) : bool :=
  match ps with Exit _ => true | Signaled _ => false end.

Definition Success (ps : ProcessState) : bool :=
  match ps with Exit status => status =? 0 | Signaled _ => false end.

Definition StateText (ps : ProcessState) : string :=
  match ps with
  | Exit status => "exit status " ++ Itoa status
  | Signaled signal => "signal: " ++ signal
  end.

Inductive goerror : Type :=
| errorString (s : string)                 (* errors.New(s) *)
| Error (Err : goerror) (Stderr : string)  (* goscript.Error{Err, Stderr} *)
| EOF                                      (* io.EOF *)
| ExitError (state : ProcessState)         (* *exec.ExitError *)
| external (descr : string).               (* raised by os, os/exec or encoding/gob *)

(** The [Error() string] method. *)
Definition ErrorText (e : goerror) : string :=
  match e with
  | errorString s => s
  | Error _ stderr => stderr
  | EOF => "EOF"
  | ExitError state => StateText state
  | external descr => descr
  end.

(** ** The signature extractor *)

Module Signature.

Record arg : Type := mkArg {
  Index : Z;
  Name : string;
  Typ : string
}.

(** The zero value of [arg], as [make([]arg, n)] fills a slice. *)
Definition zeroArg : arg := mkArg 0 "" "".

Definition setTyp (a : arg) (typ : string) : arg :=
  mkArg (Index a) (Name a) typ.

(** [a.Typ[3:]]. *)
Definition drop3 (s : string) : string :=
  String.substring 3 (String.length s - 3) s.

Definition Variadic (a : arg) : bool := HasPrefix (Typ a) "...".

Definition Argname (a : arg) : string :=
  if Variadic a then Name a ++ "..." else Name a.

Definition Typename (a : arg) : string :=
  if Variadic a then "[]" ++ drop3 (Typ a) else Typ a.

Definition TypenameSingular (a : arg) : string :=
  if Variadic a then drop3 (Typ a) else Typ a.

(** The inner loop of [extractArguments],
    [for j := i - 1; j >= 0; j-- { ... }]: [n] is the number of indexes
    still to visit, the next one being [n - 1]. *)
Fixpoint backfill (typ : string) (n : nat) (args : list arg) : list arg :=
  match n with
  | O => args
  | S j =>
      match args !! j with
      | Some a =>
          if String.eqb (Typ a) "" then backfill typ j (<[j := setTyp a typ]> args)
          else args
      | None => args
      end
  end.

(** The name and type of one comma-segment:
    [ss := strings.Split(strings.TrimSpace(seg), " ")], [ss[0]] and, when
    [len(ss) > 1], [ss[1]]. *)
Definition fields (seg : string) : string * option string :=
  match Split (TrimSpace seg) " " with
  | name :: typ :: _ => (name, Some typ)
  | name :: [] => (name, None)
  | [] => ("", None)
  end.

(** The outer loop, [for i := range segs], from index [i] on. *)
Fixpoint extractLoop (i : nat) (segs : list string) (args : list arg) : list arg :=
  match segs with
  | [] => args
  | seg :: rest =>
      let '(name, otyp) := fields seg in
      let args1 := match otyp with
                   | Some typ => backfill typ i args
                   | None => args
                   end in
      let typ := match otyp with Some typ => typ | None => "" end in
      extractLoop (S i) rest (<[i := mkArg (Z.of_nat i) name typ]> args1)
  end.

(** [extractArguments(code)].  [None] is the run-time panic of [segs[1]]
    on a line without an opening parenthesis; a nil slice is [[]]. *)
Definition extractArguments (code : string) : option (list arg) :=
  match Split code "(" !! 1%nat with
  | None => None
  | Some inner =>
      let segs := Split (List.hd "" (Split inner ")")) "," in
      if String.eqb (List.hd "" segs) "" then Some []
      else Some (extractLoop 0 segs (replicate (List.length segs) zeroArg))
  end.

(** The loop of [processScript]; [n] is the number of lines read so far.
    [None] is a panic of [extractArguments]. *)
Fixpoint scriptLoop (n : Z) (lines : list string)
  : option (Z * list arg * option goerror) :=
  match lines with
  | [] => Some (0, [], Some (errorString "missing func goscript"))
  | text :: rest =>
      let n := n + 1 in
      let trimline := TrimSpace text in
      if negb (HasPrefix trimline "func goscript(") then scriptLoop n rest
      else match extractArguments trimline with
           | Some args => Some (n, args, None)
           | None => None
           end
  end.

Definition processScript (script : string)
  : option (Z * list arg * option goerror) :=
  scriptLoop 0 (Scan script).

End Signature.

Export Signature.

(** ** The harness template and the diagnostic remapper *)

Module Remapper.

Definition unlines (ls : list string) : string :=
  String.concat "" (List.map (fun l => l ++ nl) ls).

Definition scriptHarnessCode : string := unlines
  [ "// Code generated by goscript; DO NOT EDIT";
    "// github.com/matryer/goscript";
    "";
    "package main";
    "";
    "import (";
    tab ++ quote ++ "encoding/gob" ++ quote;
    tab ++ quote ++ "os" ++ quote;
    tab ++ quote ++ "log" ++ quote;
    ")";
    "";
    "// <goscript>";
    "{{ .Goscript }}";
    "// </goscript>";
    "";
    "func main() {";
    tab ++ "r := gob.NewDecoder(os.Stdin)";
    tab ++ "w := gob.NewEncoder(os.Stdout)";
    tab ++ "if err := w.Encode(" ++ quote ++ "ready" ++ quote ++ "); err != nil {";
    tab ++ tab ++ "log.Fatalln(err)";
    tab ++ "}";
    tab ++ "for {";
    tab ++ tab ++ "var args []interface{}";
    tab ++ tab ++ "if err := r.Decode(&args); err != nil {";
    tab ++ tab ++ tab ++ "log.Fatalln(err)";
    tab ++ tab ++ "}";
    tab ++ tab ++ "{{- range .InArgs }}";
    tab ++ tab ++ "{{- if .Variadic }}";
    tab ++ tab ++ "{{ .Name }} := make({{ .Typename }}, len(args)-{{ .Index }})";
    tab ++ tab ++ "for i := {{ .Index }}; i < len(args); i++ {";
    tab ++ tab ++ tab ++ "{{ .Name }}[i-{{ .Index }}] = args[i].({{ .TypenameSingular }})";
    tab ++ tab ++ "}";
    tab ++ tab ++ "{{- else }}";
    tab ++ tab ++ "{{ .Name }} := args[{{ .Index }}].({{ .Typename }})";
    tab ++ tab ++ "{{- end }}";
    tab ++ tab ++ "{{- end }}";
    tab ++ tab ++ "var res response";
    tab ++ tab ++ "res.Value, res.Error = goscript({{ .ArgsList }})";
    tab ++ tab ++ "if err := w.Encode(res); err != nil {";
    tab ++ tab ++ tab ++ "log.Fatalln(err)";
    tab ++ tab ++ "}";
    tab ++ "}";
    "}";
    "";
    "type response struct {";
    tab ++ "Value interface{}";
    tab ++ "Error error";
    "}" ].

(** The loop of [init]: [line] starts at 1 and counts the lines read
    before the substitution point. *)
Fixpoint startLoop (line : Z) (toks : list string) : Z :=
  match toks with
  | [] => line
  | text :: rest =>
      if String.eqb text "{{ .Goscript }}" then line
      else startLoop (line + 1) rest
  end.

Definition scriptStartLine : Z :=
  startLoop 1 (Scan scriptHarnessCode) - 1.

(** What one iteration of the loop of [processOutput] does with a line. *)
Inductive step : Type :=
| Continue
| Append (line : string).

(** The body of the loop.  [None] is the panic of [segs[1]] on a slice of
    length one. *)
Definition processLine (scriptLines : Z) (line : string) : option step :=
  let trimline := TrimSpace line in
  if String.eqb trimline "# command-line-arguments" then Some Continue
  else if Contains line "goscript.go:" then
    let segs := Split line ":" in
    let segs := <[0%nat := "goscript"]> segs in
    match segs !! 1%nat with
    | None => None
    | Some seg1 =>
        match Atoi seg1 with
        | Some n =>
            let scriptlineN := sub n scriptStartLine in
            if scriptlineN >? scriptLines then Some Continue
            else Some (Append (Join (<[1%nat := Itoa (sub n scriptStartLine)]> segs) ":"))
        | None => Some (Append (Join segs ":"))
        end
    end
  else Some (Append line).

(** The loop over the scanner's tokens; [lines] is the slice built so far. *)
Fixpoint outputLoop (scriptLines : Z) (toks : list string) (lines : list string)
  : option (list string) :=
  match toks with
  | [] => Some lines
  | line :: rest =>
      match processLine scriptLines line with
      | None => None
      | Some Continue => outputLoop scriptLines rest lines
      | Some (Append line') => outputLoop scriptLines rest (lines ++ [line'])
      end
  end.

Definition processOutput (scriptLines : Z) (out : string) : option string :=
  match outputLoop scriptLines (Scan out) [] with
  | Some lines => Some (Join lines nl)
  | None => None
  end.

End Remapper.

Export Remapper.


(** ** The child process, its streams and the file system

    Everything outside the package is a [World]: the answers the Go
    run-time and the operating system give, the files that exist, and the
    log of the operations performed so far. *)

Module Process.

(** Values of type [interface{}] that travel in an envelope. *)
Inductive iface : Type :=
| VNil
| VString (s : string)
| VInt (i : Z)
| VBool (b : bool)
| VStrings (elems : list string).

(** A slice of [interface{}]: [None] is the nil slice. *)
Definition slice : Type := option (list iface).

Definition sliceLen (a : slice) : Z :=
  match a with None => 0 | Some l => Z.of_nat (List.length l) end.

(** A message the child wrote on the response stream. *)
Inductive message : Type :=
| MsgString (state : string)
| MsgResponse (Value : iface) (Err : option goerror).

(** The data handed to the template. *)
Record harnessData : Type := mkData {
  Goscript : string;
  InArgs : list arg;
  ArgsList : string
}.

Inductive event : Type :=
| EvTempDir (dir : string)
| EvCreate (path : string)
| EvTemplateExecute (data : harnessData)
| EvFileClose
| EvStdinPipe
| EvStdoutPipe
| EvStderrPipe
| EvStart (scriptFile : string)
| EvLock
| EvUnlock
| EvEncode (args : slice)
| EvDecode
| EvReadAllStderr
| EvWait
| EvStdinClose
| EvKill
| EvStdoutClose
| EvStderrClose
| EvRemove (path : string).

Record World : Type := mkWorld {
  (* answers *)
  templateParse : option goerror;       (* template.Parse, run by init *)
  tempDir : string * option goerror;    (* ioutil.TempDir *)
  create : option goerror;              (* os.Create *)
  templateExecute : option goerror;
  fileClose : option goerror;
  stdinPipe : option goerror;
  stdoutPipe : option goerror;
  stderrPipe : option goerror;
  start : option goerror;               (* cmd.Start *)
  requests : nat -> option goerror;     (* the n-th Encode on the request stream *)
  responses : nat -> message + goerror; (* the n-th Decode on the response stream *)
  exitState : ProcessState + goerror;   (* what waiting for the child reports *)
  cleanup : event -> option goerror;    (* closing, killing, removing *)
  (* state *)
  diagnostics : string;                 (* unread bytes of the child's standard error *)
  encoded : nat;
  decoded : nat;
  files : list string;
  trace : list event
}.

Definition update (w : World) (diag : string) (enc dec : nat)
  (fs : list string) (tr : list event) : World :=
  mkWorld (templateParse w) (tempDir w) (create w) (templateExecute w)
    (fileClose w) (stdinPipe w) (stdoutPipe w) (stderrPipe w) (start w)
    (requests w) (responses w) (exitState w) (cleanup w)
    diag enc dec fs tr.

Definition log (e : event) (w : World) : World :=
  update w (diagnostics w) (encoded w) (decoded w) (files w) (trace w ++ [e]).

Definition setFiles (fs : list string) (w : World) : World :=
  update w (diagnostics w) (encoded w) (decoded w) fs (trace w).

(** Computations that act on the world; [None] is a run-time panic. *)
Definition M (A : Type) : Type := World -> option A * World.

Definition ret {A} (a : A) : M A := fun w => (Some a, w).

Definition bind {A B} (m : M A) (k : A -> M B) : M B :=
  fun w => match m w with
           | (Some a, w') => k a w'
           | (None, w') => (None, w')
           end.

Definition panic {A} : M A := fun w => (None, w).

Notation "x <- m ;; k" := (bind m (fun x => k))
  (at level 100, m at next level, right associativity).

Definition emit (e : event) : M unit := fun w => (Some tt, log e w).

(** An operation whose only result is an error, answered by [ask]. *)
Definition perform (e : event) (ask : World -> option goerror) : M (option goerror) :=
  fun w => (Some (ask w), log e w).

(** A cleanup operation; its outcome is the world's to decide. *)
Definition attempt (e : event) : M (option goerror) :=
  fun w => (Some (cleanup w e), log e w).

(** [ioutil.TempDir("", "goscript")]: creates the directory it names. *)
Definition TempDir : M (string * option goerror) :=
  fun w =>
    let '(dir, err) := tempDir w in
    match err with
    | Some e => (Some ("", Some e), log (EvTempDir dir) w)
    | None => (Some (dir, None), setFiles (files w ++ [dir]) (log (EvTempDir dir) w))
    end.

(** [os.Create(path)]. *)
Definition Create (path : string) : M (option goerror) :=
  fun w =>
    match create w with
    | Some e => (Some (Some e), log (EvCreate path) w)
    | None => (Some None, setFiles (files w ++ [path]) (log (EvCreate path) w))
    end.

(** [os.Remove(path)]: removes the named file or empty directory. *)
Definition Remove (path : string) : M (option goerror) :=
  fun w =>
    let w1 := log (EvRemove path) w in
    match cleanup w (EvRemove path) with
    | Some e => (Some (Some e), w1)
    | None =>
        if existsb (String.eqb path) (files w)
           && negb (existsb (fun q => HasPrefix q (path ++ "/")) (files w))
        then (Some None, setFiles (List.filter (fun q => negb (String.eqb path q)) (files w)) w1)
        else (Some (Some (external "remove: no such file, or directory not empty")), w1)
    end.

(** [enc.Encode(args)] on the request stream. *)
Definition Encode (args : slice) : M (option goerror) :=
  fun w =>
    (Some (requests w (encoded w)),
     update w (diagnostics w) (S (encoded w)) (decoded w) (files w)
       (trace w ++ [EvEncode args])).

(** The next message on the response stream. *)
Definition Decode : M (message + goerror) :=
  fun w =>
    (Some (responses w (decoded w)),
     update w (diagnostics w) (encoded w) (S (decoded w)) (files w)
       (trace w ++ [EvDecode])).

Definition mismatch : goerror := external "gob: type mismatch".

(** [dec.Decode(&state)] with [state] a string. *)
Definition DecodeString : M (string + goerror) :=
  m <- Decode ;;
  ret match m with
      | inl (MsgString state) => inl state
      | inl (MsgResponse _ _) => inr mismatch
      | inr e => inr e
      end.

(** [dec.Decode(&res)] with [res] a response. *)
Definition DecodeResponse : M (iface * option goerror + goerror) :=
  m <- Decode ;;
  ret match m with
      | inl (MsgResponse v e) => inl (v, e)
      | inl (MsgString _) => inr mismatch
      | inr e => inr e
      end.

(** [ioutil.ReadAll(s.stderr)], its error dropped. *)
Definition ReadAllStderr : M string :=
  fun w =>
    (Some (diagnostics w),
     update w "" (encoded w) (decoded w) (files w) (trace w ++ [EvReadAllStderr])).

(** [*exec.Cmd], as far as the package looks at it. *)
Record Cmd : Type := mkCmd {
  Process : bool;                       (* non-nil once started *)
  ProcState : option ProcessState       (* the field ProcessState, set by Wait only *)
}.

(** [cmd.Wait()]: the error, and the process state it stores in the command. *)
Definition Wait : M (option goerror * option ProcessState) :=
  fun w =>
    (Some match exitState w with
          | inl ps => (if Success ps then None else Some (ExitError ps), Some ps)
          | inr e => (Some e, None)
          end,
     log EvWait w).

Record Script : Type := mkScript {
  err : option goerror;
  scriptFile : string;
  scriptLines : Z;
  cmd : option Cmd;
  stdin : bool;                         (* the stream fields: true when non-nil *)
  stdinencoder : bool;
  stdout : bool;
  stdoutdecoder : bool;
  stderr : bool
}.

Definition argnames (args : list arg) : list string := List.map Argname args.

(** [createScriptFile(script, args)]. *)
Definition createScriptFile (script : string) (args : list arg)
  : M (string * option goerror) :=
  r <- TempDir ;;
  let '(dir, e) := r in
  match e with
  | Some e => ret ("", Some e)
  | None =>
      let name := dir ++ "/goscript.go" in
      e <- Create name ;;
      match e with
      | Some e => ret ("", Some e)
      | None =>
          let data := mkData script args (Join (argnames args) ", ") in
          e <- perform (EvTemplateExecute data) templateExecute ;;
          match e with
          | Some e => ret ("", Some e)
          | None =>
              e <- perform EvFileClose fileClose ;;
              match e with
              | Some e => ret ("", Some e)
              | None => ret (name, None)
              end
          end
      end
  end.

(** The zero value of [Script]. *)
Definition zeroScript : Script :=
  mkScript None "" 0 None false false false false false.

Definition setErr (e : option goerror) (s : Script) : Script :=
  mkScript e (scriptFile s) (scriptLines s) (cmd s) (stdin s)
    (stdinencoder s) (stdout s) (stdoutdecoder s) (stderr s).

Definition setScriptFile (f : string) (s : Script) : Script :=
  mkScript (err s) f (scriptLines s) (cmd s) (stdin s)
    (stdinencoder s) (stdout s) (stdoutdecoder s) (stderr s).

Definition setScriptLines (n : Z) (s : Script) : Script :=
  mkScript (err s) (scriptFile s) n (cmd s) (stdin s)
    (stdinencoder s) (stdout s) (stdoutdecoder s) (stderr s).

Definition setCmd (c : Cmd) (s : Script) : Script :=
  mkScript (err s) (scriptFile s) (scriptLines s) (Some c) (stdin s)
    (stdinencoder s) (stdout s) (stdoutdecoder s) (stderr s).

Definition setStdin (b : bool) (s : Script) : Script :=
  mkScript (err s) (scriptFile s) (scriptLines s) (cmd s) b
    (stdinencoder s) (stdout s) (stdoutdecoder s) (stderr s).

Definition setStdinencoder (b : bool) (s : Script) : Script :=
  mkScript (err s) (scriptFile s) (scriptLines s) (cmd s) (stdin s)
    b (stdout s) (stdoutdecoder s) (stderr s).

Definition setStdout (b : bool) (s : Script) : Script :=
  mkScript (err s) (scriptFile s) (scriptLines s) (cmd s) (stdin s)
    (stdinencoder s) b (stdoutdecoder s) (stderr s).

Definition setStdoutdecoder (b : bool) (s : Script) : Script :=
  mkScript (err s) (scriptFile s) (scriptLines s) (cmd s) (stdin s)
    (stdinencoder s) (stdout s) b (stderr s).

Definition setStderr (b : bool) (s : Script) : Script :=
  mkScript (err s) (scriptFile s) (scriptLines s) (cmd s) (stdin s)
    (stdinencoder s) (stdout s) (stdoutdecoder s) b.

(** A pipe is non-nil exactly when it came without an error. *)
Definition isNil (e : option goerror) : bool :=
  match e with Some _ => false | None => true end.

Definition read {A} (f : World -> A) : M A := fun w => (Some (f w), w).

(** [defer d] in a function whose remaining body is [body]: [d] runs when
    the body is left, by return or by panic. *)
Definition defer {A B} (d : M B) (body : M A) : M A :=
  fun w => let '(r, w') := body w in (r, snd (d w')).

(** [New(script)]. *)
Definition New (script : string) : M Script :=
  e <- read templateParse ;;
  let s := setErr e zeroScript in
  match err s with Some _ => ret s | None =>
  match processScript script with None => panic | Some (n, args, e) =>
  let s := setErr e (setScriptLines n s) in
  match err s with Some _ => ret s | None =>
  r <- createScriptFile script args ;;
  let s := setErr (snd r) (setScriptFile (fst r) s) in
  match err s with Some _ => ret s | None =>
  let s := setCmd (mkCmd false None) s in
  e <- perform EvStdinPipe stdinPipe ;;
  let s := setErr e (setStdin (isNil e) s) in
  match err s with Some _ => ret s | None =>
  let s := setStdinencoder true s in
  e <- perform EvStdoutPipe stdoutPipe ;;
  let s := setErr e (setStdout (isNil e) s) in
  match err s with Some _ => ret s | None =>
  let s := setStdoutdecoder true s in
  e <- perform EvStderrPipe stderrPipe ;;
  let s := setErr e (setStderr (isNil e) s) in
  match err s with Some _ => ret s | None =>
  e <- perform (EvStart (scriptFile s)) start ;;
  let s := setErr e (setCmd (mkCmd (isNil e) None) s) in
  match err s with Some _ => ret s | None =>
  d <- DecodeString ;;
  match d with
  | inr _ =>
      b <- ReadAllStderr ;;
      match processOutput (scriptLines s) b with None => panic | Some output =>
      r <- Wait ;;
      let s := setErr (fst r) (setCmd (mkCmd true (snd r)) s) in
      match err s with
      | Some e => ret (setErr (Some (Error e output)) s)
      | None => ret s
      end
      end
  | inl state =>
      if negb (String.eqb state "ready")
      then ret (setErr (Some (errorString "goscript failed to start")) s)
      else ret s
  end
  end end end end end end end end.

(** [s.cmdErr(err)]. *)
Definition cmdErr (s : Script) (e : goerror) : M goerror :=
  match cmd s with
  | None => panic
  | Some c =>
      match ProcState c with
      | Some ps =>
          if Exited ps then
            if negb (Success ps) then
              if stderr s then
                stderrb <- ReadAllStderr ;;
                ret (errorString stderrb)
              else panic
            else ret e
          else ret e
      | None => ret e
      end
  end.

(** [s.Execute(args...)]. *)
Definition Execute (s : Script) (args : slice) : M (iface * option goerror) :=
  match err s with
  | Some e => ret (VNil, Some e)
  | None =>
      let args := if sliceLen args =? 0 then Some [] else args in
      _ <- emit EvLock ;;
      defer (emit EvUnlock)
        (if negb (stdinencoder s) then panic else
         e <- Encode args ;;
         match e with
         | Some e => e' <- cmdErr s e ;; ret (VNil, Some e')
         | None =>
             if negb (stdoutdecoder s) then panic else
             d <- DecodeResponse ;;
             match d with
             | inr e => e' <- cmdErr s e ;; ret (VNil, Some e')
             | inl (v, e) => ret (v, e)
             end
         end)
  end.

(** [s.Close()]. *)
Definition Close (s : Script) : M (option goerror) :=
  defer (Remove (scriptFile s))
    (_ <- (if stdin s then attempt EvStdinClose else ret None) ;;
     _ <- match cmd s with
          | Some c =>
              if Process c then
                match ProcState c with
                | None => attempt EvKill
                | Some ps => if negb (Exited ps) then attempt EvKill else ret None
                end
              else ret None
          | None => ret None
          end ;;
     _ <- (if stdout s then attempt EvStdoutClose else ret None) ;;
     _ <- (if stderr s then attempt EvStderrClose else ret None) ;;
     ret None).

End Process.

Export Process.

(** ** Reference definitions

    What the descriptions of the extractor and of the remapper say, written
    without the loops, slices and index updates of the code. *)

Module Backfill.

(** The type a comma-segment declares itself; empty when it has none. *)
Definition declared (seg : string) : string :=
  match snd (fields seg) with Some typ => typ | None => "" end.

Definition headTyp (args : list arg) : string :=
  match args with a :: _ => Typ a | [] => "" end.

(** The descriptors of a parameter list, numbered from [i]: a segment
    without a type takes the type of the next segment that has one. *)
Fixpoint describe (i : nat) (segs : list string) : list arg :=
  match segs with
  | [] => []
  | seg :: rest =>
      let later := describe (S i) rest in
      mkArg (Z.of_nat i) (fst (fields seg))
        (if String.eqb (declared seg) "" then headTyp later else declared seg)
      :: later
  end.

Definition untyped (a : arg) : bool := String.eqb (Typ a) "".

(** Give [typ] to the run of untyped descriptors that ends the list. *)
Fixpoint fill (typ : string) (args : list arg) : list arg :=
  match args with
  | [] => []
  | a :: rest =>
      (if untyped a && forallb untyped rest then setTyp a typ else a) :: fill typ rest
  end.

(** The comma-segments [extractArguments] works on. *)
Definition paramSegments (code : string) : list string :=
  match Split code "(" !! 1%nat with
  | Some inner => Split (List.hd "" (Split inner ")")) ","
  | None => []
  end.




End Backfill.

Export Backfill.

Module Reference.

Definition marker : string := "# command-line-arguments".
Definition placeholder : string := "goscript".
Definition generated : string := "goscript.go:".
Definition point : string := "{{ .Goscript }}".

(** The number of lines that precede the substitution point. *)
Fixpoint linesBefore (ls : list string) : Z :=
  match ls with
  | [] => 0
  | l :: rest => if String.eqb l point then 0 else 1 + linesBefore rest
  end.

Definition offset : Z := linesBefore (Lines scriptHarnessCode).

(** The text before the first colon of [s], and the rest of [s] from that
    colon on. *)
Fixpoint cut (s : string) : string * string :=
  match s with
  | EmptyString => (EmptyString, EmptyString)
  | String c s' =>
      if Ascii.eqb c ":" then (EmptyString, s)
      else let (before, rest) := cut s' in (String c before, rest)
  end.

(** A line that names the generated file with a line number: the number
    that follows the first colon, and the text after the number. *)
Definition embedded (line : string) : option (Z * string) :=
  if Contains line generated then
    match snd (cut line) with
    | String _ after =>
        match Atoi (fst (cut after)) with
        | Some n => Some (n, snd (cut after))
        | None => None
        end
    | EmptyString => None
    end
  else None.

(** The line shown for line [n] of the generated file; none when the
    adjusted number lies beyond [scriptLines]. *)
Definition relocate (scriptLines : Z) (n : Z) (tail : string) : option string :=
  if sub n offset >? scriptLines then None
  else Some (placeholder ++ ":" ++ Itoa (sub n offset) ++ tail).

(** The remapper as described: the marker line is dropped, a line with an
    embedded line number is relocated, every other line is kept as it is. *)
Definition remapLine_spec (scriptLines : Z) (line : string) : option string :=
  if String.eqb (TrimSpace line) marker then None
  else match embedded line with
       | Some (n, tail) => relocate scriptLines n tail
       | None => Some line
       end.

(** The remapper as amended: a line that names the generated file without
    a number after its first colon still has the text before that colon
    replaced by the placeholder. *)
Definition remapLine (scriptLines : Z) (line : string) : option string :=
  if String.eqb (TrimSpace line) marker then None
  else match embedded line with
       | Some (n, tail) => relocate scriptLines n tail
       | None =>
           if Contains line generated then Some (placeholder ++ snd (cut line))
           else Some line
       end.

(** Line by line over the text, the lines that remain joined in order. *)
Definition remap (f : string -> option string) (out : string) : string :=
  Join (omap f (Scan out)) nl.

(** The colon-separated fields after the first one. *)
Definition afterColon (s : string) : list string :=
  match snd (cut s) with
  | String _ r => Split r ":"
  | EmptyString => []
  end.

Definition toStep (r : option string) : step :=
  match r with Some l => Append l | None => Continue end.

End Reference.

Export Reference.

(** ** Instances *)

Module Instances.

(** What a ready instance holds. *)
Definition ready (s : Script) : Prop :=
  stdin s = true /\ stdinencoder s = true /\ stdout s = true /\
  stdoutdecoder s = true /\ stderr s = true /\
  exists c, cmd s = Some c /\ Process c = true /\
    (ProcState c = None \/ exists ps, ProcState c = Some ps /\ Success ps = true).

(** The steps [Close] attempts on [s], in order. *)
Definition closeSteps (s : Script) : list event :=
  ((if stdin s then [EvStdinClose] else []) ++
   (match cmd s with
    | Some c =>
        if Process c then
          match ProcState c with
          | None => [EvKill]
          | Some ps => if Exited ps then [] else [EvKill]
          end
        else []
    | None => []
    end) ++
   (if stdout s then [EvStdoutClose] else []) ++
   (if stderr s then [EvStderrClose] else []) ++
   [EvRemove (scriptFile s)])%list.

(** Everything up to the handshake goes well. *)
Definition spawns (w : World) : Prop :=
  templateParse w = None /\ snd (tempDir w) = None /\ create w = None /\
  templateExecute w = None /\ fileClose w = None /\ stdinPipe w = None /\
  stdoutPipe w = None /\ stderrPipe w = None /\ start w = None.

End Instances.

Export Instances.

(** ** Sample worlds and snippets *)

Module Scenarios.

(** A world that refuses nothing: the child answers [resp], ends as [exit]
    says and has written [diag] on its standard error. *)
Definition calm (resp : nat -> message + goerror)
  (exit : ProcessState + goerror) (diag : string) : World :=
  mkWorld None ("/tmp/goscript1", None) None None None None None None None
    (fun _ => None) resp exit (fun _ => None) diag 0 0 [] [].

(** The child says it is ready, then serves [answers] and closes the stream. *)
Definition serving (answers : list message) (n : nat) : message + goerror :=
  match n with
  | O => inl (MsgString "ready")
  | S k => match answers !! k with Some m => inl m | None => inr EOF end
  end.

(** The response stream is closed before anything was written on it. *)
Definition silent (n : nat) : message + goerror := inr EOF.

(** A snippet whose package initialisation ends the process with status 0. *)
Definition exitEarly : string :=
  "func init() { os.Exit(0) }" ++ nl ++
  "func goscript() (interface{}, error) { return nil, nil }".

(** A snippet that ends the process with status 3 when it is called. *)
Definition crashing : string :=
  "func goscript(n int) (interface{}, error) {" ++ nl ++
  tab ++ "os.Exit(3)" ++ nl ++
  tab ++ "return n, nil" ++ nl ++
  "}".

(** A snippet without parameters. *)
Definition seven : string :=
  nl ++ "func goscript() (interface{}, error) {" ++ nl ++
  tab ++ "return 7, nil" ++ nl ++
  "}" ++ nl.

(** A snippet whose declaration is on its fourth line, and a diagnostic
    text that names lines 16 and 30 of the generated file. *)
Definition joiner : string :=
  nl ++ "import strings" ++ nl ++ nl ++
  "func goscript(separator string, items) (string, error) {" ++ nl ++
  tab ++ "return strings.Join(items, separator), nil" ++ nl ++
  "}" ++ nl.



(** What the compiler of the repository's tests wrote about [joiner]. *)
Definition mixed : string :=
  "# command-line-arguments" ++ nl ++
  "/tmp/goscript1/goscript.go:16: syntax error: mixed named and unnamed function parameters"
  ++ nl.

(** The first snippet of the repository's tests. *)
Definition greeting : string :=
  nl ++ "func goscript(salutation, name string) (string, error) {" ++ nl ++
  tab ++ "greeting := salutation + name" ++ nl ++
  tab ++ "return greeting, nil" ++ nl ++
  "}" ++ nl.

(** A line of a stack trace, as the Go run-time prints it. *)
Definition frame : string :=
  tab ++ "/tmp/goscript1/goscript.go:25 +0x39".

End Scenarios.

Export Scenarios.

(** ** [text/template], as far as the harness template uses it *)

Module Template.

(** The text before the first occurrence of [sep] in [s], and the text
    after it. *)
Fixpoint breakOn (sep s : string) : option (string * string) :=
  match stripPrefix sep s with
  | Some rest => Some (EmptyString, rest)
  | None =>
      match s with
      | EmptyString => None
      | String c s' =>
          match breakOn sep s' with
          | Some (before, after) => Some (String c before, after)
          | None => None
          end
      end
  end.

(** The white space a trim marker removes: space, tab, carriage return and
    newline. *)
Definition blanks : list string :=
  [" "; tab; String (byte 13) ""; nl].

Definition trimLeftBlanks (s : string) : string :=
  trimLeading blanks (String.length s) s.

Definition trimRightBlanks (s : string) : string :=
  rev (trimLeading blanks (String.length s) (rev s)).

(** What the lexer delivers: text, or the words of an action together with
    its trim markers. *)
Inductive item : Type :=
| IText (text : string)
| IAction (trimBefore trimAfter : bool) (words : list string).

Definition startsWithBlank (s : string) : bool :=
  match stripAny blanks s with Some _ => true | None => false end.

(** The action between the delimiters: a leading dash followed by white
    space and a trailing dash preceded by white space are trim markers. *)
Definition action (body : string) : item :=
  let before :=
    match body with
    | String c rest => Ascii.eqb c "-" && startsWithBlank rest
    | EmptyString => false
    end in
  let body1 := if before then String.substring 1 (String.length body - 1) body else body in
  let after :=
    match rev body1 with
    | String c rest => Ascii.eqb c "-" && startsWithBlank rest
    | EmptyString => false
    end in
  let body2 := if after then String.substring 0 (String.length body1 - 1) body1 else body1 in
  IAction before after
    (List.filter (fun w => negb (String.eqb w "")) (Split (trimLeftBlanks (trimRightBlanks body2)) " ")).

(** The lexer: text up to the left delimiter, an action up to the right
    delimiter, and so on; [None] when an action is not closed. *)
Fixpoint lex (fuel : nat) (s : string) : option (list item) :=
  match fuel with
  | O => None
  | S fuel' =>
      match breakOn "{{" s with
      | None => Some [IText s]
      | Some (text, rest) =>
          match breakOn "}}" rest with
          | None => None
          | Some (body, rest') =>
              match lex fuel' rest' with
              | Some items => Some (IText text :: action body :: items)
              | None => None
              end
          end
      end
  end.

(** The trim markers applied to the text on either side of each action. *)
Fixpoint trimItems (afterTrim : bool) (items : list item) : list item :=
  match items with
  | [] => []
  | IText text :: rest =>
      let text1 := if afterTrim then trimLeftBlanks text else text in
      let text2 := match rest with
                   | IAction true _ _ :: _ => trimRightBlanks text1
                   | _ => text1
                   end in
      IText text2 :: trimItems false rest
  | IAction b a words :: rest => IAction b a words :: trimItems a rest
  end.

(** The parse tree. *)
Inductive node : Type :=
| NText (text : string)
| NField (name : string)
| NRange (name : string) (body : list node)
| NIf (name : string) (yes no : list node).

(** What ended a list of nodes. *)
Inductive stop : Type := AtEOF | AtEnd | AtElse.

(** The name of a field or method of the dot: [.Name]. *)
Definition fieldName (word : string) : option string :=
  match word with
  | String c name =>
      if Ascii.eqb c "." && negb (String.eqb name "") && negb (Contains name ".")
      then Some name else None
  | EmptyString => None
  end.

(** The parser; [None] is a parse error, or an action the template does not
    use. *)
Fixpoint parseItems (fuel : nat) (items : list item)
  : option (list node * stop * list item) :=
  match fuel with
  | O => None
  | S fuel' =>
      match items with
      | [] => Some ([], AtEOF, [])
      | IText text :: rest =>
          match parseItems fuel' rest with
          | Some (nodes, st, rest') => Some (NText text :: nodes, st, rest')
          | None => None
          end
      | IAction _ _ words :: rest =>
          match words with
          | [w] =>
              if String.eqb w "end" then Some ([], AtEnd, rest)
              else if String.eqb w "else" then Some ([], AtElse, rest)
              else
                match fieldName w, parseItems fuel' rest with
                | Some name, Some (nodes, st, rest') =>
                    Some (NField name :: nodes, st, rest')
                | _, _ => None
                end
          | [kw; w] =>
              match fieldName w with
              | None => None
              | Some name =>
                  if String.eqb kw "range" then
                    match parseItems fuel' rest with
                    | Some (body, AtEnd, rest1) =>
                        match parseItems fuel' rest1 with
                        | Some (nodes, st, rest2) =>
                            Some (NRange name body :: nodes, st, rest2)
                        | None => None
                        end
                    | _ => None
                    end
                  else if String.eqb kw "if" then
                    match parseItems fuel' rest with
                    | Some (yes, AtEnd, rest1) =>
                        match parseItems fuel' rest1 with
                        | Some (nodes, st, rest2) =>
                            Some (NIf name yes [] :: nodes, st, rest2)
                        | None => None
                        end
                    | Some (yes, AtElse, rest1) =>
                        match parseItems fuel' rest1 with
                        | Some (no, AtEnd, rest2) =>
                            match parseItems fuel' rest2 with
                            | Some (nodes, st, rest3) =>
                                Some (NIf name yes no :: nodes, st, rest3)
                            | None => None
                            end
                        | _ => None
                        end
                    | _ => None
                    end
                  else None
              end
          | _ => None
          end
      end
  end.

(** [template.New(name).Parse(text)]. *)
Definition Parse (text : string) : option (list node) :=
  match lex (S (String.length text)) text with
  | None => None
  | Some items =>
      let items := trimItems false items in
      match parseItems (S (List.length items)) items with
      | Some (nodes, AtEOF, _) => Some nodes
      | _ => None
      end
  end.

(** The dot: the data of the template, or one descriptor inside the range. *)
Inductive dot : Type :=
| DData (data : harnessData)
| DArg (a : arg).

Inductive tvalue : Type :=
| TString (s : string)
| TInt (i : Z)
| TBool (b : bool)
| TArgs (args : list arg).

(** A field or a method without arguments of the dot. *)
Definition field (d : dot) (name : string) : option tvalue :=
  match d with
  | DData data =>
      if String.eqb name "Goscript" then Some (TString (Goscript data))
      else if String.eqb name "InArgs" then Some (TArgs (InArgs data))
      else if String.eqb name "ArgsList" then Some (TString (ArgsList data))
      else None
  | DArg a =>
      if String.eqb name "Index" then Some (TInt (Index a))
      else if String.eqb name "Name" then Some (TString (Name a))
      else if String.eqb name "Typ" then Some (TString (Typ a))
      else if String.eqb name "Variadic" then Some (TBool (Variadic a))
      else if String.eqb name "Argname" then Some (TString (Argname a))
      else if String.eqb name "Typename" then Some (TString (Typename a))
      else if String.eqb name "TypenameSingular" then Some (TString (TypenameSingular a))
      else None
  end.

(** What an action prints; a slice of descriptors is never printed by the
    harness template and has no text here. *)
Definition printed (v : tvalue) : option string :=
  match v with
  | TString s => Some s
  | TInt i => Some (Itoa i)
  | TBool b => Some (if b then "true" else "false")
  | TArgs _ => None
  end.

(** The truth of a value in [if]. *)
Definition truth (v : tvalue) : bool :=
  match v with
  | TString s => negb (String.eqb s "")
  | TInt i => negb (i =? 0)
  | TBool b => b
  | TArgs args => negb (Nat.eqb (List.length args) 0)
  end.

(** The body of a range, once for each descriptor. *)
Fixpoint evalEach (f : arg -> option string) (args : list arg) : option string :=
  match args with
  | [] => Some EmptyString
  | a :: args' =>
      match f a, evalEach f args' with
      | Some x, Some y => Some (x ++ y)
      | _, _ => None
      end
  end.

Fixpoint evalNode (n : node) (d : dot) {struct n} : option string :=
  let evalList :=
    fix evalList (ns : list node) (d : dot) {struct ns} : option string :=
      match ns with
      | [] => Some EmptyString
      | n' :: ns' =>
          match evalNode n' d, evalList ns' d with
          | Some a, Some b => Some (a ++ b)
          | _, _ => None
          end
      end in
  match n with
  | NText text => Some text
  | NField name =>
      match field d name with
      | Some v => printed v
      | None => None
      end
  | NRange name body =>
      match field d name with
      | Some (TArgs args) => evalEach (fun a => evalList body (DArg a)) args
      | _ => None
      end
  | NIf name yes no =>
      match field d name with
      | Some v => if truth v then evalList yes d else evalList no d
      | None => None
      end
  end.

Fixpoint evalList (ns : list node) (d : dot) : option string :=
  match ns with
  | [] => Some EmptyString
  | n :: ns' =>
      match evalNode n d, evalList ns' d with
      | Some a, Some b => Some (a ++ b)
      | _, _ => None
      end
  end.

(** [scriptHarnessTemplate.Execute(f, data)]: the text written to [f];
    [None] when the template does not parse or an action fails. *)
Definition ExecuteTemplate (data : harnessData) : option string :=
  match Parse scriptHarnessCode with
  | Some nodes => evalList nodes (DData data)
  | None => None
  end.

End Template.

Export Template.

(** ** The generated program, written out *)

Module Layout.

(** The template up to the substitution point. *)
Definition header : string := unlines
  [ "// Code generated by goscript; DO NOT EDIT";
    "// github.com/matryer/goscript";
    "";
    "package main";
    "";
    "import (";
    tab ++ quote ++ "encoding/gob" ++ quote;
    tab ++ quote ++ "os" ++ quote;
    tab ++ quote ++ "log" ++ quote;
    ")";
    "";
    "// <goscript>" ].

(** From the end of the snippet to the end of the decoding of a request. *)
Definition opening : string :=
  nl ++ "// </goscript>" ++ nl ++ nl ++
  "func main() {" ++ nl ++
  tab ++ "r := gob.NewDecoder(os.Stdin)" ++ nl ++
  tab ++ "w := gob.NewEncoder(os.Stdout)" ++ nl ++
  tab ++ "if err := w.Encode(" ++ quote ++ "ready" ++ quote ++ "); err != nil {" ++ nl ++
  tab ++ tab ++ "log.Fatalln(err)" ++ nl ++
  tab ++ "}" ++ nl ++
  tab ++ "for {" ++ nl ++
  tab ++ tab ++ "var args []interface{}" ++ nl ++
  tab ++ tab ++ "if err := r.Decode(&args); err != nil {" ++ nl ++
  tab ++ tab ++ tab ++ "log.Fatalln(err)" ++ nl ++
  tab ++ tab ++ "}".

(** The statements that bind one descriptor to its envelope elements. *)
Definition binding (a : arg) : string :=
  if Variadic a then
    nl ++ tab ++ tab ++ Name a ++ " := make(" ++ Typename a ++ ", len(args)-"
       ++ Itoa (Index a) ++ ")" ++
    nl ++ tab ++ tab ++ "for i := " ++ Itoa (Index a) ++ "; i < len(args); i++ {" ++
    nl ++ tab ++ tab ++ tab ++ Name a ++ "[i-" ++ Itoa (Index a) ++ "] = args[i].("
       ++ TypenameSingular a ++ ")" ++
    nl ++ tab ++ tab ++ "}"
  else
    nl ++ tab ++ tab ++ Name a ++ " := args[" ++ Itoa (Index a) ++ "].("
       ++ Typename a ++ ")".

Definition bindings (args : list arg) : string :=
  String.concat "" (List.map binding args).

(** The call of the entry point, up to its argument list. *)
Definition calling : string :=
  nl ++ tab ++ tab ++ "var res response" ++
  nl ++ tab ++ tab ++ "res.Value, res.Error = goscript(".

(** From the end of the argument list to the end of the file. *)
Definition closing : string :=
  ")" ++ nl ++
  tab ++ tab ++ "if err := w.Encode(res); err != nil {" ++ nl ++
  tab ++ tab ++ tab ++ "log.Fatalln(err)" ++ nl ++
  tab ++ tab ++ "}" ++ nl ++
  tab ++ "}" ++ nl ++
  "}" ++ nl ++ nl ++
  "type response struct {" ++ nl ++
  tab ++ "Value interface{}" ++ nl ++
  tab ++ "Error error" ++ nl ++
  "}" ++ nl.

(** The statements of the range, as a parse tree. *)
Definition bindingNodes : list node :=
  [ NText "";
    NIf "Variadic"
      [ NText (nl ++ tab ++ tab); NField "Name"; NText " := make(";
        NField "Typename"; NText ", len(args)-"; NField "Index";
        NText (")" ++ nl ++ tab ++ tab ++ "for i := "); NField "Index";
        NText ("; i < len(args); i++ {" ++ nl ++ tab ++ tab ++ tab);
        NField "Name"; NText "[i-"; NField "Index"; NText "] = args[i].(";
        NField "TypenameSingular"; NText (")" ++ nl ++ tab ++ tab ++ "}") ]
      [ NText (nl ++ tab ++ tab); NField "Name"; NText " := args[";
        NField "Index"; NText "].("; NField "Typename"; NText ")" ];
    NText "" ].

(** The parse tree of the harness template. *)
Definition harnessNodes : list node :=
  [ NText header; NField "Goscript"; NText opening;
    NRange "InArgs" bindingNodes;
    NText calling; NField "ArgsList"; NText closing ].

Definition program (data : harnessData) : string :=
  header ++ Goscript data ++ opening ++ bindings (InArgs data)
  ++ calling ++ ArgsList data ++ closing.

(** The data [createScriptFile] hands to the template. *)
Definition harnessOf (script : string) (args : list arg) : harnessData :=
  mkData script args (Join (argnames args) ", ").

(** The byte [c] occurs in [s]. *)
Fixpoint hasByte (c : ascii) (s : string) : bool :=
  match s with
  | EmptyString => false
  | String d s' => Ascii.eqb c d || hasByte c s'
  end.

(** The byte [c] belongs to no encoding of a white-space rune. *)
Definition solid (c : ascii) : bool :=
  forallb (fun bs => negb (hasByte c (encode bs))) spaceRunes.

End Layout.

Export Layout.

(** ** The operations of a construction *)

Module Spawning.

(** Everything [New] does for [script] when nothing fails, in order. *)
Definition spawnSequence (script : string) (w : World) : list event :=
  match processScript script with
  | Some (_, args, None) =>
      let dir := fst (tempDir w) in
      let file := dir ++ "/goscript.go" in
      [ EvTempDir dir; EvCreate file;
        EvTemplateExecute (harnessOf script args); EvFileClose;
        EvStdinPipe; EvStdoutPipe; EvStderrPipe; EvStart file;
        EvDecode; EvReadAllStderr; EvWait ]
  | _ => []
  end.

(** What a call does on the streams of a ready instance. *)
Definition callSteps (args : slice) (w : World) : list event :=
  [EvLock; EvEncode (if sliceLen args =? 0 then Some [] else args)]
  ++ match requests w (encoded w) with
     | Some _ => []
     | None => [EvDecode]
     end
  ++ [EvUnlock].

(** What a call returns on a ready instance. *)
Definition callResult (w : World) : iface * option goerror :=
  match requests w (encoded w) with
  | Some e => (VNil, Some e)
  | None =>
      match responses w (decoded w) with
      | inl (MsgResponse v e) => (v, e)
      | inl (MsgString _) => (VNil, Some mismatch)
      | inr e => (VNil, Some e)
      end
  end.

End Spawning.

Export Spawning.

(** ** The rename example *)

Module Rename.

Definition allowedImports : list string := ["filepath"; "strings"].

(** [fmt.Sprintf] with the verb for a quoted string, on a name of letters. *)
Definition quoted (s : string) : string := quote ++ s ++ quote.

(** The loop of [imports]; [acc] is the list built so far. *)
Fixpoint importsLoop (script : string) (pkgs : list string) (acc : string) : string :=
  match pkgs with
  | [] => acc
  | pkg :: rest =>
      if Contains script (pkg ++ ".")
      then importsLoop script rest (acc ++ quoted pkg ++ nl)
      else importsLoop script rest acc
  end.

Definition imports (script : string) : string :=
  importsLoop script allowedImports "".

(** The snippet [main] builds around the user's text. *)
Definition fullscript (script : string) : string :=
  (nl ++ "import (") ++ imports script ++
  (")" ++ nl ++ nl ++
   "func goscript(filename string) (string, error) {" ++ nl ++
   tab ++ tab ++ "var out string" ++ nl ++
   tab ++ tab) ++ script ++
  (nl ++ tab ++ tab ++ "return out, nil" ++ nl ++ "}" ++ nl ++ tab).

(** How many of the allowed packages the script names. *)
Definition importCount (script : string) : Z :=
  Z.of_nat (List.length (List.filter (fun pkg => Contains script (pkg ++ ".")) allowedImports)).

(** The declaration [main] writes around the user's text. *)
Definition declaration : string :=
  "func goscript(filename string) (string, error) {".

End Rename.

Export Rename.

(** ** Lines at the scanner's limit *)

Module Limits.

(** A line of exactly [MaxScanTokenSize] bytes, the shortest one the
    scanner refuses. *)
Definition longLine : string :=
  string_of_list_ascii (repeat "a"%char (Z.to_nat MaxScanTokenSize)).

End Limits.

Export Limits.

(** ** Lines that name the generated file *)

Module Reading.

(** The text that follows the first occurrence of [name] in [s]. *)
Fixpoint following (name s : string) : option string :=
  match stripPrefix name s with
  | Some r => Some r
  | None =>
      match s with
      | EmptyString => None
      | String _ s' => following name s'
      end
  end.

(** The decimal digits [s] begins with. *)
Fixpoint numeral (s : string) : string :=
  match s with
  | String c r => if isDigit c then String c (numeral r) else EmptyString
  | EmptyString => EmptyString
  end.

(** The line number a line names, as the description reads it: the number
    written right after the name of the generated file and its colon. *)
Definition numbered_spec (line : string) : option Z :=
  match following generated line with
  | Some r => Atoi (numeral r)
  | None => None
  end.


(** A compiler report whose path has a colon of its own. *)
Definition drive30 : string :=
  "C:\Temp\goscript1\goscript.go:30:2: undefined: x".

End Reading.

Export Reading.

(** * Properties *)

(** ** Strings, [Split] and [Join] *)

Section Strings.

Lemma append_assoc (a b c : string) : (a ++ b) ++ c = a ++ b ++ c.
Proof. induction a; simpl; congruence. Qed.

Lemma append_empty_r (a : string) : a ++ "" = a.
Proof. induction a; simpl; congruence. Qed.

Lemma HasPrefix_app s p : HasPrefix s p = true -> exists r, s = p ++ r.
Proof.
  unfold HasPrefix. revert s. induction p as [|c p IH]; intros s H; simpl in *.
  - by exists s.
  - destruct s as [|d s]; simpl in H; [done|].
    destruct (ascii_dec c d) as [->|]; [|done].
    destruct (IH s H) as [r ->]. by exists r.
Qed.

Lemma Contains_app s sub : Contains s sub = true -> exists a b, s = a ++ sub ++ b.
Proof.
  induction s as [|c s IH]; cbn [Contains]; intros H.
  - rewrite orb_false_r in H. apply HasPrefix_app in H as [r ->]. by exists "", r.
  - apply orb_prop in H as [H|H].
    + apply HasPrefix_app in H as [r ->]. by exists "", r.
    + destruct (IH H) as (a & b & ->). by exists (String c a), b.
Qed.

Lemma cut_cons c s :
  cut (String c s)
  = if Ascii.eqb c ":" then (EmptyString, String c s)
    else (String c (fst (cut s)), snd (cut s)).
Proof. simpl. by destruct (cut s). Qed.

Lemma cut_app s : fst (cut s) ++ snd (cut s) = s.
Proof.
  induction s as [|c s IH]; [done|]. rewrite cut_cons.
  destruct (Ascii.eqb c ":"); simpl; congruence.
Qed.

Lemma cut_snd s : snd (cut s) = "" \/ exists r, snd (cut s) = String ":" r.
Proof.
  induction s as [|c s IH]; [by left|]. rewrite cut_cons.
  destruct (Ascii.eqb c ":") eqn:E; simpl; [|done].
  apply Ascii.eqb_eq in E as ->. right. by exists s.
Qed.

Lemma cut_colon a b : exists r, snd (cut (a ++ String ":" b)) = String ":" r.
Proof.
  induction a as [|c a IH].
  - by exists b.
  - change (String c a ++ String ":" b) with (String c (a ++ String ":" b)).
    rewrite cut_cons.
    destruct (Ascii.eqb c ":") eqn:E; simpl; [|done].
    apply Ascii.eqb_eq in E as ->. by eexists.
Qed.

Lemma Contains_cut line :
  Contains line generated = true -> exists r, snd (cut line) = String ":" r.
Proof.
  intros H. apply Contains_app in H as (a & b & ->).
  change (generated ++ b) with ("goscript.go" ++ String ":" b).
  rewrite <- append_assoc. apply cut_colon.
Qed.

Lemma Split_cut s : Split s ":" = fst (cut s) :: afterColon s.
Proof.
  unfold afterColon. induction s as [|c s IH]; [done|].
  rewrite cut_cons. cbn [Split].
  destruct (Ascii.eqb c ":") eqn:E; simpl; [done|].
  rewrite IH. done.
Qed.

Lemma Join_cons x y l : Join (x :: y :: l) ":" = x ++ ":" ++ Join (y :: l) ":".
Proof. done. Qed.

Lemma Split_nonempty s sep : Split s sep <> [].
Proof.
  destruct s as [|c s]; simpl; [done|].
  destruct (Ascii.eqb c sep); [done|]. by destruct (Split s sep).
Qed.

Lemma Join_cons_split x s :
  Join (x :: Split s ":") ":" = x ++ ":" ++ Join (Split s ":") ":".
Proof.
  pose proof (Split_nonempty s ":"). by destruct (Split s ":").
Qed.

Lemma Join_Split s : Join (Split s ":") ":" = s.
Proof.
  induction s as [|c s IH]; simpl; [done|].
  pose proof (Split_nonempty s ":") as Hne.
  destruct (Split s ":") as [|h t]; [done|].
  destruct (Ascii.eqb c ":") eqn:E.
  - apply Ascii.eqb_eq in E as ->. rewrite Join_cons, IH. done.
  - destruct t as [|y t].
    + simpl in *. congruence.
    + rewrite Join_cons in *. change (String c h ++ ":" ++ Join (y :: t) ":")
        with (String c (h ++ ":" ++ Join (y :: t) ":")). by rewrite IH.
Qed.

Lemma Join_afterColon x s : Join (x :: afterColon s) ":" = x ++ snd (cut s).
Proof.
  unfold afterColon. destruct (cut_snd s) as [->|[r ->]].
  - simpl. by rewrite append_empty_r.
  - rewrite Split_cut, Join_cons, <- Split_cut, Join_Split. done.
Qed.

End Strings.

(** ** The extractor computes the back-filled description *)

Section Extractor.
Local Open Scope list_scope.

Lemma fill_length typ args : length (fill typ args) = length args.
Proof. induction args; simpl; congruence. Qed.

Lemma fill_snoc typ args a :
  fill typ (args ++ [a]) =
  if untyped a then fill typ args ++ [setTyp a typ] else args ++ [a].
Proof.
  induction args as [|b args IH]; simpl.
  - rewrite andb_true_r. by destruct (untyped a).
  - rewrite IH, forallb_app. simpl. rewrite andb_true_r.
    destruct (untyped a); simpl.
    + by rewrite andb_true_r.
    + by rewrite !andb_false_r.
Qed.

Lemma backfill_fill typ args tail :
  backfill typ (length args) (args ++ tail) = fill typ args ++ tail.
Proof.
  revert tail. induction args as [|a args IH] using rev_ind; intros tail.
  - done.
  - rewrite length_app. simpl. rewrite Nat.add_1_r. simpl.
    rewrite <- app_assoc. simpl.
    rewrite list_lookup_middle by done.
    rewrite fill_snoc. unfold untyped.
    destruct (String.eqb (Typ a) "") eqn:E.
    + rewrite insert_app_r_alt by done. rewrite Nat.sub_diag. simpl.
      rewrite IH. by rewrite <- app_assoc.
    + by rewrite <- app_assoc.
Qed.

Lemma untyped_fill_empty args : fill "" args = args.
Proof.
  induction args as [|a args IH]; simpl; [done|]. rewrite IH. f_equal.
  destruct (untyped a) eqn:E; simpl; [|done].
  destruct (forallb untyped args); [|done].
  unfold untyped in E. apply String.eqb_eq in E.
  destruct a; simpl in *; subst; done.
Qed.

(** In a description, an entry without a type is followed by entries
    without a type only. *)
Lemma describe_untyped_head i segs :
  headTyp (describe i segs) = "" -> forallb untyped (describe i segs) = true.
Proof.
  revert i. induction segs as [|seg rest IH]; intros i; simpl; [done|].
  destruct (String.eqb (declared seg) "") eqn:E.
  - intros H. unfold untyped at 1. simpl. rewrite H. simpl. by apply IH.
  - intros H. rewrite H in E. done.
Qed.

Lemma headTyp_fill typ args :
  args <> [] ->
  headTyp (fill typ args) = if forallb untyped args then typ else headTyp args.
Proof.
  destruct args as [|a args]; [done|]. intros _. simpl.
  destruct (untyped a && forallb untyped args); done.
Qed.

Lemma describe_snoc i segs seg :
  describe i (segs ++ [seg]) =
  fill (declared seg) (describe i segs)
  ++ [mkArg (Z.of_nat (i + length segs)) (fst (fields seg)) (declared seg)].
Proof.
  revert i. induction segs as [|s segs IH]; intros i; simpl.
  - rewrite Nat.add_0_r. by destruct (String.eqb (declared seg) "") eqn:E;
      [apply String.eqb_eq in E; rewrite E|].
  - rewrite IH. replace (S i + length segs)%nat with (i + S (length segs))%nat by lia.
    f_equal. unfold untyped at 1. simpl.
    destruct (String.eqb (declared s) "") eqn:Es; simpl.
    + destruct (describe (S i) segs) as [|b later] eqn:D.
      * simpl. by destruct (String.eqb (declared seg) "") eqn:E;
          [apply String.eqb_eq in E; rewrite E|]; rewrite ?String.eqb_refl.
      * rewrite <- D.
        assert (headTyp (fill (declared seg) (describe (S i) segs)
                 ++ [mkArg (Z.of_nat (i + S (length segs))) (fst (fields seg)) (declared seg)])
                = headTyp (fill (declared seg) (describe (S i) segs))) as ->.
        { rewrite D. done. }
        rewrite headTyp_fill by (rewrite D; done).
        destruct (String.eqb (headTyp (describe (S i) segs)) "") eqn:Eh.
        -- apply String.eqb_eq in Eh. rewrite (describe_untyped_head _ _ Eh). simpl.
           done.
        -- simpl. destruct (forallb untyped (describe (S i) segs)) eqn:Ef; [|done].
           rewrite D in Ef, Eh. simpl in *. unfold untyped in Ef at 1.
           rewrite Eh in Ef. done.
    + rewrite Es. done.
Qed.

Lemma fields_declared seg :
  fields seg = (fst (fields seg), snd (fields seg)).
Proof. by destruct (fields seg). Qed.

Lemma extractLoop_describe done rest :
  extractLoop (length done) rest (describe 0 done ++ replicate (length rest) zeroArg)
  = describe 0 (done ++ rest).
Proof.
  revert done. induction rest as [|seg rest IH]; intros done; simpl.
  - by rewrite !app_nil_r.
  - rewrite (fields_declared seg).
    replace (done ++ seg :: rest) with ((done ++ [seg]) ++ rest) by (by rewrite <- app_assoc).
    rewrite <- IH. rewrite length_app. simpl. rewrite Nat.add_1_r.
    f_equal. rewrite describe_snoc. simpl.
    assert (Hl : length (describe 0 done) = length done).
    { clear. generalize 0%nat. induction done; intros; simpl; [done|]. by rewrite IHdone. }
    unfold declared.
    destruct (snd (fields seg)) as [typ|].
    + pose proof (backfill_fill typ (describe 0 done)
                    (zeroArg :: replicate (length rest) zeroArg)) as Hb.
      rewrite Hl in Hb. rewrite Hb.
      rewrite insert_app_r_alt by (rewrite fill_length; lia).
      rewrite fill_length, Hl, Nat.sub_diag. simpl.
      by rewrite <- app_assoc.
    + rewrite untyped_fill_empty.
      rewrite insert_app_r_alt by lia.
      rewrite Hl, Nat.sub_diag. simpl. by rewrite <- app_assoc.
Qed.

End Extractor.

Section Variadic.
Local Open Scope list_scope.

Lemma describe_length i segs : length (describe i segs) = length segs.
Proof. revert i. induction segs; intros; simpl; [done|]. by rewrite IHsegs. Qed.






End Variadic.

(** ** The remapper, line by line *)

Section Remap.
Local Open Scope list_scope.

Lemma startLine_offset : scriptStartLine = offset.
Proof. vm_compute. reflexivity. Qed.

Lemma processLine_remapLine n line :
  processLine n line = Some (toStep (remapLine n line)).
Proof.
  unfold processLine, remapLine, embedded.
  change "# command-line-arguments"%string with marker.
  destruct (String.eqb (TrimSpace line) marker); [done|].
  change "goscript.go:"%string with generated.
  destruct (Contains line generated) eqn:C; [|done].
  destruct (Contains_cut line C) as [r Hr].
  assert (Hs : Split line ":" = fst (cut line) :: fst (cut r) :: afterColon r).
  { rewrite Split_cut. unfold afterColon at 1. rewrite Hr. by rewrite Split_cut. }
  rewrite Hs, Hr.
  change (<[0%nat:="goscript"%string]> (fst (cut line) :: fst (cut r) :: afterColon r))
    with (placeholder :: fst (cut r) :: afterColon r).
  change ((placeholder :: fst (cut r) :: afterColon r) !! 1%nat)
    with (Some (fst (cut r))).
  destruct (Atoi (fst (cut r))) as [k|] eqn:A.
  - rewrite A. unfold relocate. rewrite startLine_offset.
    destruct (sub k offset >? n); [done|].
    change (<[1%nat:=Itoa (sub k offset)]> (placeholder :: fst (cut r) :: afterColon r))
      with (placeholder :: Itoa (sub k offset) :: afterColon r).
    rewrite Join_cons, Join_afterColon. done.
  - rewrite A, <- Split_cut, Join_cons_split, Join_Split. done.
Qed.

End Remap.

Section Output.
Local Open Scope list_scope.

Lemma outputLoop_omap n toks acc :
  outputLoop n toks acc = Some (acc ++ omap (remapLine n) toks).
Proof.
  revert acc. induction toks as [|line rest IH]; intros acc; simpl.
  - by rewrite app_nil_r.
  - rewrite processLine_remapLine.
    destruct (remapLine n line) as [l|]; simpl.
    + rewrite IH, <- app_assoc. done.
    + apply IH.
Qed.

Lemma processOutput_remap n out :
  processOutput n out = Some (remap (remapLine n) out).
Proof. unfold processOutput, remap. by rewrite outputLoop_omap. Qed.

Lemma tokens_Lines raw line : In line (tokens raw) -> In line (List.map dropCR raw).
Proof.
  induction raw as [|l raw IH]; simpl; [done|].
  destruct (fits l); simpl; [|done]. intros [H|H]; auto.
Qed.


Lemma Scan_Lines text line : In line (Scan text) -> In line (Lines text).
Proof. apply tokens_Lines. Qed.


Lemma Split_prefix s p sep :
  HasPrefix s (p ++ String sep "") = true -> exists x, Split s sep !! 1%nat = Some x.
Proof.
  intros H. apply HasPrefix_app in H as [r ->]. rewrite append_assoc.
  induction p as [|c p IH]; simpl.
  - rewrite Ascii.eqb_refl. simpl.
    pose proof (Split_nonempty r sep). destruct (Split r sep); [done|]. by eexists.
  - destruct (Ascii.eqb c sep).
    + simpl. pose proof (Split_nonempty (p ++ String sep r) sep).
      destruct (Split _ sep); [done|]. by eexists.
    + destruct IH as [x Hx]. destruct (Split _ sep) as [|h [|y t]]; try done.
      by eexists.
Qed.

Lemma extractArguments_entry line :
  HasPrefix line "func goscript(" = true -> exists args, extractArguments line = Some args.
Proof.
  intros H. unfold extractArguments.
  destruct (Split_prefix line "func goscript" "(" H) as [x ->].
  destruct (String.eqb _ _); by eexists.
Qed.

Lemma scriptLoop_total n lines : exists r, scriptLoop n lines = Some r.
Proof.
  revert n. induction lines as [|l lines IH]; intros n; simpl; [by eexists|].
  destruct (HasPrefix (TrimSpace l) "func goscript(") eqn:E; simpl; [|apply IH].
  destruct (extractArguments_entry _ E) as [args ->]. by eexists.
Qed.

Lemma scriptLoop_missing n lines :
  (forall l, In l lines -> HasPrefix (TrimSpace l) "func goscript(" = false) ->
  scriptLoop n lines = Some (0, [], Some (errorString "missing func goscript")).
Proof.
  revert n. induction lines as [|l lines IH]; intros n H; simpl; [done|].
  rewrite (H l) by (by left). simpl. apply IH. intros; apply H; by right.
Qed.

(** The number [processScript] returns is the 1-based number of the first
    line that declares the entry point, and the descriptors are those of
    that line. *)
Lemma scriptLoop_declaration n lines k args :
  scriptLoop n lines = Some (k, args, None) ->
  exists before text after,
    lines = before ++ text :: after
    /\ k = n + Z.of_nat (length before) + 1
    /\ HasPrefix (TrimSpace text) "func goscript(" = true
    /\ extractArguments (TrimSpace text) = Some args
    /\ forall l, In l before -> HasPrefix (TrimSpace l) "func goscript(" = false.
Proof.
  revert n. induction lines as [|l lines IH]; intros n; simpl; [done|].
  destruct (HasPrefix (TrimSpace l) "func goscript(") eqn:E; simpl.
  - destruct (extractArguments _) as [a|] eqn:Ea; [|done]. intros [= <- <-].
    exists [], l, lines. simpl. repeat split; try done. lia.
  - intros H. apply IH in H as (before & text & after & -> & -> & Hp & Ha & Hb).
    exists (l :: before), text, after. simpl. repeat split; try done; [lia|].
    intros l' [<-|Hin]; auto.
Qed.

Lemma scriptLoop_found n lines k args :
  scriptLoop n lines = Some (k, args, None) ->
  n < k <= n + Z.of_nat (length lines).
Proof.
  revert n. induction lines as [|l lines IH]; intros n; simpl; [done|].
  destruct (HasPrefix (TrimSpace l) "func goscript("); simpl.
  - destruct (extractArguments _); [|done]. intros [= <- _]. lia.
  - intros H. apply IH in H. lia.
Qed.

End Output.

(** ** Construction, calls and teardown *)

Section Lifecycle.
Local Open Scope list_scope.

Lemma processScript_total script : exists r, processScript script = Some r.
Proof. apply scriptLoop_total. Qed.

(** The answer [x] of the world: a refusal ends the run, closed by [k]. *)
Local Ltac answer x k := destruct x; simpl; [k|].

Local Ltac stopped :=
  eexists _, _; split; [reflexivity|]; simpl; discriminate.

Local Ltac running :=
  eexists _, _; split; [reflexivity|]; intros _; unfold ready; simpl;
  repeat split; eexists; repeat split; eauto.

(** [New] always returns an instance, and an instance that carries no
    error has its streams open and a started process whose recorded state,
    if any, is a success. *)
Lemma New_spec script w :
  exists s w', New script w = (Some s, w') /\ (err s = None -> ready s).
Proof.
  unfold New, bind, read, ret, createScriptFile, TempDir, Create, perform,
    DecodeString, Decode, ReadAllStderr, Wait, bind, ret.
  answer (templateParse w) stopped.
  destruct (processScript_total script) as [[[n args] e] ->].
  answer e stopped.
  destruct (tempDir w) as [dir e].
  answer e stopped.
  answer (create w) stopped.
  answer (templateExecute w) stopped.
  answer (fileClose w) stopped.
  answer (stdinPipe w) stopped.
  answer (stdoutPipe w) stopped.
  answer (stderrPipe w) stopped.
  answer (start w) stopped.
  destruct (responses w (decoded w)) as [[state|v e]|e]; simpl.
  - destruct (negb _); [stopped|running].
  - rewrite processOutput_remap. simpl.
    destruct (exitState w) as [ps|e']; simpl;
      [destruct (Success ps) eqn:S|]; [running|stopped..].
  - rewrite processOutput_remap. simpl.
    destruct (exitState w) as [ps|e']; simpl;
      [destruct (Success ps) eqn:S|]; [running|stopped..].
Qed.

Lemma New_returns script w : exists s, fst (New script w) = Some s.
Proof. destruct (New_spec script w) as (s & w' & -> & _). by exists s. Qed.

Lemma New_ready script w s :
  fst (New script w) = Some s -> err s = None -> ready s.
Proof.
  destruct (New_spec script w) as (s' & w' & -> & H). by intros [= <-].
Qed.

(** On a ready instance [cmdErr] hands back the error it was given. *)
Lemma cmdErr_ready s e w : ready s -> cmdErr s e w = (Some e, w).
Proof.
  intros (_ & _ & _ & _ & _ & c & Hc & _ & Hps). unfold cmdErr. rewrite Hc.
  destruct Hps as [->|(ps & -> & Hs)]; [done|].
  destruct ps as [status|sig]; simpl in *; [|done]. by rewrite Hs.
Qed.


Lemma Execute_failed s e args w :
  err s = Some e -> Execute s args w = (Some (VNil, Some e), w).
Proof. intros H. unfold Execute. by rewrite H. Qed.

Lemma New_missing script w :
  templateParse w = None ->
  (forall line, In line (Scan script) ->
                HasPrefix (TrimSpace line) "func goscript(" = false) ->
  New script w
  = (Some (setErr (Some (errorString "missing func goscript")) zeroScript), w).
Proof.
  intros Hp Hl. unfold New, bind, read, ret. rewrite Hp. simpl.
  unfold processScript. rewrite (scriptLoop_missing 0 _ Hl). done.
Qed.

(** A call whose transport fails on a ready instance gives the transport
    error back, whatever has become of the child. *)
Lemma Execute_encode_error s args w e :
  ready s -> err s = None -> requests w (encoded w) = Some e ->
  fst (Execute s args w) = Some (VNil, Some e).
Proof.
  intros Hr He Hq. pose proof Hr as (_ & Henc & _).
  unfold Execute, bind, emit, defer, Encode, ret. rewrite He, Henc. simpl.
  rewrite Hq. rewrite (cmdErr_ready _ _ _ Hr). done.
Qed.

Lemma Execute_decode_error s args w e :
  ready s -> err s = None -> requests w (encoded w) = None ->
  responses w (decoded w) = inr e ->
  fst (Execute s args w) = Some (VNil, Some e).
Proof.
  intros Hr He Hq Hd. pose proof Hr as (_ & Henc & _ & Hdec & _).
  unfold Execute, bind, emit, defer, Encode, DecodeResponse, Decode, bind, ret.
  rewrite He, Henc, Hdec. unfold update, log. simpl. rewrite Hq. simpl. rewrite Hd.
  rewrite (cmdErr_ready _ _ _ Hr). done.
Qed.

Lemma Close_returns_nil s w : fst (Close s w) = Some None.
Proof.
  unfold Close, defer, bind, attempt, ret, Remove.
  destruct (stdin s), (cmd s) as [[[] [[]|]]|], (stdout s), (stderr s); simpl;
    repeat (match goal with |- context [match ?x with _ => _ end] => destruct x end; simpl);
    done.
Qed.

Lemma Close_trace s w : trace (snd (Close s w)) = trace w ++ closeSteps s.
Proof.
  unfold Close, closeSteps, defer, bind, attempt, ret, Remove.
  destruct (stdin s), (cmd s) as [[[] [[]|]]|], (stdout s), (stderr s); simpl;
    repeat (match goal with |- context [match ?x with _ => _ end] => destruct x end; simpl);
    rewrite <- ?app_assoc; done.
Qed.

Lemma Close_keeps s w path :
  In path (files w) -> path <> scriptFile s -> In path (files (snd (Close s w))).
Proof.
  intros Hin Hne.
  assert (Hf : forall w0, files w0 = files w ->
            In path (files (snd (Remove (scriptFile s) w0)))).
  { intros w0 H0. unfold Remove.
    destruct (cleanup w0 _); simpl; [by rewrite H0|].
    destruct (_ && _); simpl; [|by rewrite H0].
    rewrite H0. apply filter_In. split; [done|].
    apply negb_true_iff. by apply String.eqb_neq. }
  unfold Close, defer, bind, attempt, ret.
  destruct (stdin s), (cmd s) as [[[] [[]|]]|], (stdout s), (stderr s); simpl;
    apply Hf; done.
Qed.

(** What [cmdErr] does with the state the command records: the diagnostic
    text when the state is an exit with a status other than zero, the error
    it was given otherwise. *)
Lemma cmdErr_exited s c ps e w :
  cmd s = Some c -> ProcState c = Some ps -> stderr s = true ->
  Exited ps = true -> Success ps = false ->
  fst (cmdErr s e w) = Some (errorString (diagnostics w)).
Proof.
  intros Hc Hp Hs He Hn. unfold cmdErr. by rewrite Hc, Hp, He, Hn, Hs.
Qed.

Lemma cmdErr_otherwise s c e w :
  cmd s = Some c ->
  (ProcState c = None
   \/ exists ps, ProcState c = Some ps /\ (Exited ps = false \/ Success ps = true)) ->
  cmdErr s e w = (Some e, w).
Proof.
  intros Hc H. unfold cmdErr. rewrite Hc.
  destruct H as [->|(ps & -> & [->| ->])]; [done|done|].
  by destruct (Exited ps).
Qed.

(** What construction does by design when the handshake fails and waiting
    for the child reports a failure: the diagnostic text is read, remapped,
    the child is waited for, and the remapped text is the text of the error
    the instance carries. *)
Lemma New_handshake_failure script w n args e ps :
  spawns w ->
  processScript script = Some (n, args, None) ->
  responses w (decoded w) = inr e ->
  exitState w = inl ps -> Success ps = false ->
  exists s w',
    New script w = (Some s, w')
    /\ err s = Some (Error (ExitError ps) (remap (remapLine n) (diagnostics w)))
    /\ option_map ErrorText (err s) = Some (remap (remapLine n) (diagnostics w))
    /\ exists before,
         trace w' = trace w ++ before ++ [EvDecode; EvReadAllStderr; EvWait].
Proof.
  intros (Hp & Ht & Hc & Hx & Hf & Hi & Ho & He & Hs) Hscr Hd Hw Hn.
  unfold New, bind, read, ret, createScriptFile, TempDir, Create, perform,
    DecodeString, Decode, ReadAllStderr, Wait, bind, ret.
  rewrite Hp, Hscr. simpl. destruct (tempDir w) as [dir oe]. simpl in Ht. subst oe.
  unfold setFiles, update, log. simpl.
  rewrite Hc. simpl. rewrite Hx. simpl. rewrite Hf. simpl. rewrite Hi. simpl.
  rewrite Ho. simpl. rewrite He. simpl. rewrite Hs. simpl. rewrite Hd. simpl.
  rewrite processOutput_remap. simpl. rewrite Hw, Hn. simpl.
  eexists _, _. split; [reflexivity|]. split; [done|]. split; [done|]. simpl.
  eexists [_; _; _; _; _; _; _; _]. rewrite <- !app_assoc. simpl. reflexivity.
Qed.

(** No instance that construction returns without an error ever answers a
    transport failure with the diagnostic text. *)
Lemma Execute_never_diagnostic script w0 s args w e :
  fst (New script w0) = Some s -> err s = None ->
  (requests w (encoded w) = Some e
   \/ requests w (encoded w) = None /\ responses w (decoded w) = inr e) ->
  fst (Execute s args w) = Some (VNil, Some e).
Proof.
  intros HN He H.
  pose proof (New_ready _ _ _ HN He) as Hr.
  destruct H as [H|[H1 H2]].
  - by apply Execute_encode_error.
  - by apply Execute_decode_error.
Qed.

End Lifecycle.

(** ** The repository's tests, replayed on the model *)

Section Tests.
Local Open Scope list_scope.

(** [TestGoscript]: two arguments go out in one envelope, the value of the
    response comes back. *)
Example test_greeting :
  let w := calm (serving [MsgResponse (VString "Hello Mat") None])
             (inl (Signaled "killed")) "" in
  let s := mkScript None "/tmp/goscript1/goscript.go" 2
             (Some (mkCmd true None)) true true true true true in
  let r := Execute s (Some [VString "Hello"; VString "Mat"]) (snd (New greeting w)) in
  processScript greeting
  = Some (2, [mkArg 0 "salutation" "string"; mkArg 1 "name" "string"], None)
  /\ fst (New greeting w) = Some s
  /\ fst r = Some (VString "Hello Mat", None)
  /\ trace (snd r)
     = trace (snd (New greeting w))
       ++ [EvLock; EvEncode (Some [VString "Hello"; VString "Mat"]); EvDecode; EvUnlock].
Proof. repeat split; by vm_compute. Qed.

(** The last case of [TestGoscriptTests]: the compiler rejects the
    declaration on line 4 of the snippet, line 16 of the generated file. *)
Example test_mixed_parameters :
  let w := calm silent (inl (Exit 1)) mixed in
  option_map (fun s => option_map ErrorText (err s)) (fst (New joiner w))
  = Some (Some "goscript:4: syntax error: mixed named and unnamed function parameters"%string).
Proof. by vm_compute. Qed.

(** The line count [New] hands to the remapper is the line of the
    declaration: a diagnostic about the body of the entry point, one line
    further down, is dropped as well. *)
Example processOutput_drops_body_line :
  processScript joiner
  = Some (4, [mkArg 0 "separator" "string"; mkArg 1 "items" ""], None)
  /\ length (Lines joiner) = 6%nat
  /\ processOutput 4 "/tmp/goscript1/goscript.go:17:9: undefined: strings" = Some ""%string.
Proof. repeat split; by vm_compute. Qed.

End Tests.

(** ** The claims *)

Section Claims.
Local Open Scope list_scope.

(** C1. For the parameter list [one, two, three string, age int] the
    extractor returns the four descriptors one, two, three, each of type
    string, and age of type int, in this order; in general the loop of the
    extractor computes the description in which a segment without a type
    takes the type of the next segment that has one. *)
Theorem extractArguments_backfill :
  extractArguments
    "func goscript(one, two, three string, age int) (interface{}, error)"
  = Some [mkArg 0 "one" "string"; mkArg 1 "two" "string";
          mkArg 2 "three" "string"; mkArg 3 "age" "int"]
  /\ paramSegments "func goscript(one, two, three string, age int)"
     = ["one"; " two"; " three string"; " age int"]%string
  /\ forall segs : list string,
       extractLoop 0 segs (replicate (length segs) zeroArg) = describe 0 segs.
Proof.
  split; [by vm_compute|]. split; [by vm_compute|].
  intros segs. apply (extractLoop_describe []).
Qed.

(** C7. For the declaration line [func goscript(items ...string)] the
    extractor yields exactly one descriptor; it is variadic, its element
    type is string and its visible type is the slice of string. *)
Theorem extractArguments_variadic :
  let a := mkArg 0 "items" "...string" in
  extractArguments "func goscript(items ...string)" = Some [a]
  /\ Variadic a = true
  /\ TypenameSingular a = "string"%string
  /\ Typename a = "[]string"%string.
Proof. by vm_compute. Qed.




(** C2. When no line of the snippet, trimmed, begins with
    [func goscript(], construction ends with the error
    [missing func goscript] and leaves the world as it was: nothing is
    generated and nothing is spawned.  Every call of Execute on that
    instance returns this same error and leaves the world as it was. *)
Theorem New_missing_entry_point (script : string) (w : World) :
  templateParse w = None ->
  (forall line, In line (Lines script) ->
                HasPrefix (TrimSpace line) "func goscript(" = false) ->
  exists s,
    New script w = (Some s, w)
    /\ err s = Some (errorString "missing func goscript")
    /\ forall (args : slice) (w' : World),
         Execute s args w'
         = (Some (VNil, Some (errorString "missing func goscript")), w').
Proof.
  intros Hp Hl. eexists. split; [|split].
  - apply New_missing; [done|]. intros line Hin. apply Hl. by apply Scan_Lines.
  - done.
  - intros args w'. by apply Execute_failed.
Qed.

Lemma New_missing_entry_point_witness :
  let script := ("package main" ++ nl ++ "  func main() {}" ++ nl)%string in
  let w := calm silent (inl (Exit 0)) "" in
  templateParse w = None
  /\ Lines script = ["package main"; "  func main() {}"]%string
  /\ exists s,
       New script w = (Some s, w)
       /\ err s = Some (errorString "missing func goscript")
       /\ forall (args : slice) (w' : World),
            Execute s args w'
            = (Some (VNil, Some (errorString "missing func goscript")), w').
Proof.
  split; [reflexivity|]. split; [by vm_compute|].
  apply New_missing_entry_point; [reflexivity|].
  intros line Hin. vm_compute in Hin.
  destruct Hin as [<-|[<-|[]]]; by vm_compute.
Defined.

(** C4, as stated, fails: a line of a stack trace names the generated
    file, and no number follows its first colon; the description keeps it
    as it is, the code replaces the text before the colon. *)
Lemma processOutput_rewrites_unnumbered :
  processOutput 1 frame = Some ("goscript:25 +0x39"%string)
  /\ remap (remapLine_spec 1) frame = frame
  /\ processOutput 1 frame <> Some (remap (remapLine_spec 1) frame).
Proof. split; [by vm_compute|]. split; [by vm_compute|]. by vm_compute. Qed.

(** C4, amended. Line by line over the lines the scanner delivers: a line
    that, trimmed, equals the marker is dropped; a line that contains
    [goscript.go:] has the text before its first colon replaced by
    [goscript] and, when the text between its first and second colon is an
    integer, that number reduced by the offset (the line is dropped when the
    reduced number exceeds the line count it is given), the rest of the line
    kept; every other line is kept as it is; the lines that remain are
    joined in their order.  The offset is the number of template lines
    before the substitution point, 12. *)
Theorem processOutput_refines (scriptLines : Z) (out : string) :
  processOutput scriptLines out = Some (remap (remapLine scriptLines) out)
  /\ scriptStartLine = offset
  /\ offset = 12.
Proof.
  split; [apply processOutput_remap|]. split; [apply startLine_offset|].
  by vm_compute.
Qed.

(** C5 fails on the code: the snippet ends its process with status 0 before
    it writes the ready token.  The handshake fails, the text is read and
    the child is waited for, and the instance carries no error. *)
Theorem New_handshake_failure_unrecorded :
  let w := calm silent (inl (Exit 0)) "" in
  responses w 0%nat = inr EOF
  /\ option_map err (fst (New exitEarly w)) = Some None
  /\ trace (snd (New exitEarly w))
     = [EvTempDir "/tmp/goscript1"; EvCreate "/tmp/goscript1/goscript.go";
        EvTemplateExecute (mkData exitEarly [] "");
        EvFileClose; EvStdinPipe; EvStdoutPipe; EvStderrPipe;
        EvStart "/tmp/goscript1/goscript.go";
        EvDecode; EvReadAllStderr; EvWait].
Proof. split; [done|]. split; by vm_compute. Qed.

(** C6 fails on the code: after a construction that succeeds, Close
    returns nil and attempts each step, a second Close does the same, and
    the private directory is still there. *)
Theorem Close_leaves_directory :
  let w := calm (serving []) (inl (Signaled "killed")) "" in
  let s := mkScript None "/tmp/goscript1/goscript.go" 2
             (Some (mkCmd true None)) true true true true true in
  let w1 := snd (New seven w) in
  let w2 := snd (Close s w1) in
  fst (New seven w) = Some s
  /\ files w1 = ["/tmp/goscript1"; "/tmp/goscript1/goscript.go"]%string
  /\ fst (Close s w1) = Some None
  /\ trace w2 = trace w1 ++ [EvStdinClose; EvKill; EvStdoutClose; EvStderrClose;
                             EvRemove "/tmp/goscript1/goscript.go"]
  /\ files w2 = ["/tmp/goscript1"]%string
  /\ fst (Close s w2) = Some None
  /\ files (snd (Close s w2)) = ["/tmp/goscript1"]%string.
Proof. repeat split; by vm_compute. Qed.

(** C8 fails on the code: the child ends with status 3 during a call, the
    decoding of the response fails, and Execute returns the transport error;
    the diagnostic text is left unread. *)
Theorem Execute_crash_returns_transport_error :
  let w := calm (serving []) (inl (Exit 3)) "exit status 3" in
  let s := mkScript None "/tmp/goscript1/goscript.go" 1
             (Some (mkCmd true None)) true true true true true in
  let w1 := snd (New crashing w) in
  let r := Execute s (Some [VInt 1]) w1 in
  fst (New crashing w) = Some s
  /\ exitState w1 = inl (Exit 3)
  /\ fst r = Some (VNil, Some EOF)
  /\ diagnostics (snd r) = "exit status 3"%string
  /\ trace (snd r) = trace w1 ++ [EvLock; EvEncode (Some [VInt 1]); EvDecode; EvUnlock].
Proof. repeat split; by vm_compute. Qed.

(** C10. A call of Execute without arguments on a ready instance takes the
    lock and encodes the empty, non-nil argument list; nothing else is
    encoded during the call. *)
Theorem Execute_no_arguments
  (script : string) (w0 : World) (s : Script) (args : slice) (w : World) :
  fst (New script w0) = Some s -> err s = None ->
  sliceLen args = 0 ->
  exists rest,
    trace (snd (Execute s args w))
    = trace w ++ EvLock :: EvEncode (Some []) :: rest
    /\ forall a, ~ In (EvEncode a) rest.
Proof.
  intros HN He Hl.
  pose proof (New_ready _ _ _ HN He) as Hr.
  pose proof Hr as (_ & Henc & _ & Hdec & _).
  unfold Execute, bind, emit, defer, Encode, DecodeResponse, Decode, bind, ret.
  rewrite He, Henc, Hdec, Hl. unfold update, log. simpl.
  destruct (requests w (encoded w)) as [e|]; simpl.
  - rewrite (cmdErr_ready _ _ _ Hr). simpl.
    exists [EvUnlock]. rewrite <- !app_assoc. simpl. split; [done|].
    intros a [H|[]]. discriminate.
  - destruct (responses w (decoded w)) as [[state|v e]|e]; simpl;
      rewrite ?(cmdErr_ready _ _ _ Hr); simpl;
      exists [EvDecode; EvUnlock]; rewrite <- !app_assoc; simpl; (split; [done|]);
      intros a [H|[H|[]]]; discriminate.
Qed.

Lemma Execute_no_arguments_witness :
  let w0 := calm (serving [MsgResponse (VInt 7) None]) (inl (Signaled "killed")) "" in
  let s := mkScript None "/tmp/goscript1/goscript.go" 2
             (Some (mkCmd true None)) true true true true true in
  let w := snd (New seven w0) in
  fst (New seven w0) = Some s
  /\ err s = None
  /\ sliceLen None = 0
  /\ fst (Execute s None w) = Some (VInt 7, None)
  /\ exists rest,
       trace (snd (Execute s None w))
       = trace w ++ EvLock :: EvEncode (Some []) :: rest
       /\ forall a, ~ In (EvEncode a) rest.
Proof.
  split; [by vm_compute|]. split; [done|]. split; [done|].
  split; [by vm_compute|].
  apply (Execute_no_arguments seven
           (calm (serving [MsgResponse (VInt 7) None]) (inl (Signaled "killed")) ""));
    by vm_compute.
Defined.

End Claims.

(** * Further properties *)

(** ** Bytes that trimming and splitting keep *)

Section Bytes.
Local Open Scope list_scope.

Lemma hasByte_app c a b : hasByte c (a ++ b)%string = hasByte c a || hasByte c b.
Proof. induction a as [|d a IH]; cbn [hasByte append]; [done|]. by rewrite IH, orb_assoc. Qed.

Lemma hasByte_list c l :
  hasByte c (string_of_list_ascii l) = existsb (Ascii.eqb c) l.
Proof. induction l as [|d l IH]; cbn [hasByte string_of_list_ascii existsb]; congruence. Qed.

Lemma hasByte_rev c s : hasByte c (rev s) = hasByte c s.
Proof.
  unfold rev. rewrite hasByte_list.
  rewrite <- (string_of_list_ascii_of_string s) at 2. rewrite hasByte_list.
  apply eq_true_iff_eq. rewrite !existsb_exists.
  split; intros (x & Hx & E); exists x; split; try done; by apply in_rev in Hx || apply in_rev.
Qed.

Lemma stripPrefix_app p s r : stripPrefix p s = Some r -> s = (p ++ r)%string.
Proof.
  revert s. induction p as [|a p IH]; intros s H; simpl in H.
  - by injection H as ->.
  - destruct s as [|b s]; [done|]. destruct (Ascii.eqb a b) eqn:E; [|done].
    apply Ascii.eqb_eq in E as ->. simpl. f_equal. by apply IH.
Qed.

Lemma stripAny_app ps s r :
  stripAny ps s = Some r -> exists p, In p ps /\ s = (p ++ r)%string.
Proof.
  induction ps as [|p ps IH]; simpl; [done|].
  destruct (stripPrefix p s) as [r'|] eqn:E.
  - intros [= ->]. exists p. split; [by left|]. by apply stripPrefix_app.
  - intros H. destruct (IH H) as (q & Hq & ->). exists q. split; [by right|done].
Qed.

(** What is trimmed away is made of the given runes, and what is left is
    the end of the text. *)
Lemma trimLeading_app ps fuel s :
  exists q, s = (q ++ trimLeading ps fuel s)%string
            /\ forall c, (forall p, In p ps -> hasByte c p = false) -> hasByte c q = false.
Proof.
  revert s. induction fuel as [|fuel IH]; intros s; simpl.
  - by exists ""%string.
  - destruct (stripAny ps s) as [r|] eqn:E; [|by exists ""%string].
    apply stripAny_app in E as (p & Hp & ->).
    destruct (IH r) as (q & Hq & Hc). exists (p ++ q)%string. split.
    + rewrite append_assoc. by rewrite <- Hq.
    + intros c H. rewrite hasByte_app, (H p Hp), (Hc c H). done.
Qed.

Lemma solid_spaces c :
  solid c = true ->
  (forall p, In p (List.map encode spaceRunes) -> hasByte c p = false)
  /\ (forall p, In p (List.map (fun bs => encode (List.rev bs)) spaceRunes) -> hasByte c p = false).
Proof.
  unfold solid. rewrite forallb_forall. intros H. split; intros p Hp.
  - apply in_map_iff in Hp as (bs & <- & Hbs). apply negb_true_iff. by apply H.
  - apply in_map_iff in Hp as (bs & <- & Hbs). specialize (H bs Hbs).
    apply negb_true_iff in H. unfold encode in *. rewrite hasByte_list in *.
    rewrite List.map_rev. rewrite <- H. apply eq_true_iff_eq. rewrite !existsb_exists.
    split; intros (x & Hx & E); exists x; split; try done; by apply in_rev in Hx || apply in_rev.
Qed.

Lemma TrimLeft_app s :
  exists q, s = (q ++ TrimLeft s)%string
            /\ forall c, solid c = true -> hasByte c q = false.
Proof.
  destruct (trimLeading_app (List.map encode spaceRunes) (String.length s) s) as (q & Hq & Hc).
  exists q. split; [done|]. intros c Hs. apply Hc. by apply solid_spaces.
Qed.

Lemma rev_rev s : rev (rev s) = s.
Proof.
  unfold rev. rewrite list_ascii_of_string_of_list_ascii, List.rev_involutive.
  apply string_of_list_ascii_of_string.
Qed.

Lemma rev_app a b : rev (a ++ b)%string = (rev b ++ rev a)%string.
Proof.
  unfold rev.
  assert (H : forall x y, list_ascii_of_string (x ++ y)%string
                          = list_ascii_of_string x ++ list_ascii_of_string y).
  { induction x; simpl; congruence. }
  assert (G : forall x y, string_of_list_ascii (x ++ y)
                          = (string_of_list_ascii x ++ string_of_list_ascii y)%string).
  { induction x; simpl; congruence. }
  by rewrite H, List.rev_app_distr, G.
Qed.

Lemma TrimRight_app s :
  exists q, s = (TrimRight s ++ q)%string
            /\ forall c, solid c = true -> hasByte c q = false.
Proof.
  unfold TrimRight.
  destruct (trimLeading_app (List.map (fun bs => encode (List.rev bs)) spaceRunes)
              (String.length s) (rev s)) as (q & Hq & Hc).
  exists (rev q). split.
  - rewrite <- rev_app, <- Hq. by rewrite rev_rev.
  - intros c Hs. rewrite hasByte_rev. apply Hc. by apply solid_spaces.
Qed.

(** [TrimSpace] removes bytes of white-space runes only, from both ends. *)
Lemma TrimSpace_app s :
  exists a b, s = (a ++ TrimSpace s ++ b)%string
              /\ forall c, solid c = true -> hasByte c a = false /\ hasByte c b = false.
Proof.
  destruct (TrimLeft_app s) as (a & Ha & Hca).
  destruct (TrimRight_app (TrimLeft s)) as (b & Hb & Hcb).
  exists a, b. split.
  - unfold TrimSpace. by rewrite <- Hb.
  - intros c Hs. split; auto.
Qed.

Lemma TrimSpace_solid c s : solid c = true -> hasByte c (TrimSpace s) = hasByte c s.
Proof.
  intros Hs. destruct (TrimSpace_app s) as (a & b & Hab & Hc).
  destruct (Hc c Hs) as [Ha Hb]. rewrite Hab at 2.
  rewrite !hasByte_app, Ha, Hb. by rewrite orb_false_r.
Qed.

Lemma TrimSpace_bytes c s : hasByte c (TrimSpace s) = true -> hasByte c s = true.
Proof.
  intros H. destruct (TrimSpace_app s) as (a & b & Hab & _). rewrite Hab.
  rewrite !hasByte_app, H. by rewrite orb_true_r.
Qed.

End Bytes.

(** ** The generated program *)

Section Generator.
Local Open Scope list_scope.

Lemma Parse_harness : Parse scriptHarnessCode = Some harnessNodes.
Proof. vm_compute. reflexivity. Qed.

Lemma evalNode_range name body d :
  evalNode (NRange name body) d
  = match field d name with
    | Some (TArgs args) => evalEach (fun a => evalList body (DArg a)) args
    | _ => None
    end.
Proof. reflexivity. Qed.

Lemma evalEach_concat f g args :
  (forall a, f a = Some (g a)) ->
  evalEach f args = Some (String.concat "" (List.map g args)).
Proof.
  intros H. induction args as [|a args IH]; simpl; [done|].
  rewrite H, IH. destruct args; simpl; [by rewrite append_empty_r|done].
Qed.

Lemma evalList_binding a : evalList bindingNodes (DArg a) = Some (binding a).
Proof.
  unfold binding, bindingNodes. cbn -[Itoa Typename TypenameSingular].
  destruct (Variadic a); cbn -[Itoa Typename TypenameSingular]; f_equal.
  all: repeat (rewrite ?append_assoc, ?append_empty_r; cbn -[Itoa Typename TypenameSingular]).
  all: reflexivity.
Qed.

(** The template never fails, and the program it writes is the header, the
    snippet, one binding per descriptor and the call. *)
Lemma ExecuteTemplate_program data : ExecuteTemplate data = Some (program data).
Proof.
  unfold ExecuteTemplate. rewrite Parse_harness. unfold harnessNodes.
  cbn [evalList]. rewrite evalNode_range.
  change (field (DData data) "InArgs") with (Some (TArgs (InArgs data))).
  cbv iota. rewrite (evalEach_concat _ binding) by apply evalList_binding.
  cbn -[header opening calling closing bindings String.concat].
  unfold program, bindings. by rewrite append_empty_r.
Qed.


Lemma rawLines_nonempty c s : rawLines (String c s) <> [].
Proof.
  cbn [rawLines]. destruct (Ascii.eqb c (byte 10)); [done|]. by destruct (rawLines s).
Qed.

(** A line without a newline, then a newline: the first line of the text. *)
Lemma rawLines_line l rest :
  hasByte (byte 10) l = false ->
  rawLines (l ++ nl ++ rest) = l :: rawLines rest.
Proof.
  induction l as [|c l IH]; intros H.
  - done.
  - cbn [hasByte] in H. apply orb_false_elim in H as [Hc Hl].
    change (String c l ++ nl ++ rest)%string with (String c (l ++ nl ++ rest)).
    cbn [rawLines]. rewrite Ascii.eqb_sym, Hc, (IH Hl). done.
Qed.

Lemma concat_cons_empty x l :
  String.concat "" (x :: l) = (x ++ String.concat "" l)%string.
Proof. destruct l; simpl; [by rewrite append_empty_r|done]. Qed.

Lemma unlines_cons l ls : unlines (l :: ls) = ((l ++ nl) ++ unlines ls)%string.
Proof. unfold unlines. cbn [List.map]. apply concat_cons_empty. Qed.

Lemma rawLines_unlines ls rest :
  forallb (fun l => negb (hasByte (byte 10) l)) ls = true ->
  rawLines (unlines ls ++ rest) = ls ++ rawLines rest.
Proof.
  induction ls as [|l ls IH]; intros H; [done|].
  cbn [forallb] in H. apply andb_prop in H as [Hl Hls]. apply negb_true_iff in Hl.
  rewrite unlines_cons, !append_assoc. rewrite (rawLines_line l _ Hl), (IH Hls). done.
Qed.

(** The lines of a text are the first lines of the text followed by a
    newline and anything else. *)
Lemma rawLines_prefix s rest i line :
  rawLines s !! i = Some line -> rawLines (s ++ nl ++ rest) !! i = Some line.
Proof.
  revert i line. induction s as [|c s IH]; intros i line H; [done|].
  change (String c s ++ nl ++ rest)%string with (String c (s ++ nl ++ rest)).
  cbn [rawLines] in *. destruct (Ascii.eqb c (byte 10)).
  - destruct i as [|i]; [done|]. simpl in *. by apply IH.
  - destruct (rawLines s) as [|h t] eqn:Es.
    + destruct s as [|d s]; [|by apply rawLines_nonempty in Es].
      destruct i as [|i]; [|done]. simpl in H. injection H as <-. done.
    + destruct (rawLines (s ++ nl ++ rest)) as [|h' t'] eqn:Er.
      * specialize (IH 0%nat h eq_refl). done.
      * destruct i as [|i]; simpl in *.
        -- injection H as <-. by specialize (IH 0%nat h eq_refl) as [= ->].
        -- exact (IH (S i) line H).
Qed.

Lemma scriptStartLine_value : scriptStartLine = 12.
Proof. by vm_compute. Qed.

Lemma program_lines data i line :
  rawLines (Goscript data) !! i = Some line ->
  rawLines (program data) !! (Z.to_nat scriptStartLine + i)%nat = Some line.
Proof.
  intros H. rewrite scriptStartLine_value. unfold program, header.
  rewrite rawLines_unlines by (by vm_compute).
  rewrite lookup_app_r by (simpl; lia).
  replace (Z.to_nat 12 + i - length _)%nat with i by (simpl; lia).
  unfold opening. rewrite !append_assoc.
  rewrite <- (append_assoc (Goscript data) nl). rewrite append_assoc.
  by apply rawLines_prefix.
Qed.

End Generator.

(** ** Names, types and positions of the descriptors *)

Section Fields.
Local Open Scope list_scope.

(** No piece of a split contains the separator, and a piece has no byte
    that the text does not have. *)
Lemma Split_pieces s sep x :
  In x (Split s sep) ->
  hasByte sep x = false /\ forall c, hasByte c x = true -> hasByte c s = true.
Proof.
  revert x. induction s as [|d s IH]; intros x; cbn [Split].
  - intros [<-|[]]. done.
  - destruct (Ascii.eqb d sep) eqn:E.
    + intros [<-|H]; [done|]. destruct (IH x H) as [H1 H2]. split; [done|].
      intros c Hc. cbn [hasByte]. rewrite (H2 c Hc). by rewrite orb_true_r.
    + pose proof (Split_nonempty s sep) as Hne.
      destruct (Split s sep) as [|h t]; [done|].
      intros [<-|H].
      * destruct (IH h (or_introl eq_refl)) as [H1 H2]. split.
        -- cbn [hasByte]. rewrite Ascii.eqb_sym, E, H1. done.
        -- intros c. cbn [hasByte]. intros Hc. apply orb_prop in Hc as [->|Hc]; [done|].
           rewrite (H2 c Hc). by rewrite orb_true_r.
      * destruct (IH x (or_intror H)) as [H1 H2]. split; [done|].
        intros c Hc. cbn [hasByte]. rewrite (H2 c Hc). by rewrite orb_true_r.
Qed.

Lemma hd_Split s sep : In (List.hd ""%string (Split s sep)) (Split s sep).
Proof.
  pose proof (Split_nonempty s sep). destruct (Split s sep); [done|]. by left.
Qed.

(** The name and the type of a segment are pieces of the segment without
    a space. *)
Lemma fields_pieces seg x :
  (x = fst (fields seg) \/ snd (fields seg) = Some x) ->
  hasByte " " x = false /\ forall c, hasByte c x = true -> hasByte c seg = true.
Proof.
  intros H.
  assert (Hin : In x (Split (TrimSpace seg) " ")).
  { unfold fields in H. pose proof (Split_nonempty (TrimSpace seg) " ") as Hne.
    destruct (Split (TrimSpace seg) " ") as [|name [|typ rest]]; [done| |].
    - destruct H as [->|H]; [by left|done].
    - destruct H as [->|[= <-]]; [by left|by right; left]. }
  destruct (Split_pieces _ _ _ Hin) as [H1 H2]. split; [done|].
  intros c Hc. apply TrimSpace_bytes. by apply H2.
Qed.

(** The segments of a parameter list contain no comma and no parenthesis. *)
Lemma paramSegments_pieces code seg :
  In seg (paramSegments code) ->
  hasByte "," seg = false /\ hasByte "(" seg = false /\ hasByte ")" seg = false.
Proof.
  unfold paramSegments. destruct (Split code "(" !! 1%nat) as [inner|] eqn:E; [|done].
  intros H. destruct (Split_pieces _ _ _ H) as [H1 H2].
  destruct (Split_pieces _ _ _ (hd_Split inner ")")) as [H3 H4].
  apply list_elem_of_lookup_2, list_elem_of_In in E.
  destruct (Split_pieces _ _ _ E) as [H5 _].
  split; [done|]. split.
  - destruct (hasByte "(" seg) eqn:Hc; [|done].
    apply H2, H4 in Hc. congruence.
  - destruct (hasByte ")" seg) eqn:Hc; [|done]. apply H2 in Hc. congruence.
Qed.

(** In a description every name is the name of the segment in its place,
    and every type is empty or the type some segment declares. *)
Lemma describe_entries i segs k a :
  describe i segs !! k = Some a ->
  Index a = Z.of_nat (i + k)
  /\ (exists seg, segs !! k = Some seg /\ Name a = fst (fields seg))
  /\ (Typ a = ""%string \/ exists seg, In seg segs /\ snd (fields seg) = Some (Typ a)).
Proof.
  revert i k a. induction segs as [|seg rest IH]; intros i k a H; [done|].
  assert (Hh : forall j, headTyp (describe j rest) = ""%string
               \/ exists s, In s rest /\ snd (fields s) = Some (headTyp (describe j rest))).
  { intros j. destruct (describe j rest) as [|b l] eqn:D; [by left|].
    destruct (IH j 0%nat b) as (_ & _ & [Hb|(s & Hs & Hb)]); [by rewrite D|by left|].
    right. exists s. done. }
  destruct k as [|k]; cbn [describe] in H; simpl in H.
  - injection H as <-. cbn [Index Name Typ]. split; [f_equal; lia|].
    split; [by exists seg|].
    destruct (String.eqb (declared seg) "") eqn:E.
    + destruct (Hh (S i)) as [->|(s & Hs & Hb)]; [by left|].
      right. exists s. split; [by right|done].
    + right. exists seg. split; [by left|]. unfold declared in *.
      destruct (snd (fields seg)); [done|]. done.
  - destruct (IH (S i) k a H) as (H1 & (s & Hs & Hn) & H3). split; [rewrite H1; f_equal; lia|].
    split; [by exists s|]. destruct H3 as [->|(s' & Hs' & Hb)]; [by left|].
    right. exists s'. split; [by right|done].
Qed.


Lemma extractArguments_cases code args :
  extractArguments code = Some args ->
  (List.hd ""%string (paramSegments code) = ""%string /\ args = [])
  \/ (List.hd ""%string (paramSegments code) <> ""%string
      /\ args = describe 0 (paramSegments code)).
Proof.
  unfold extractArguments, paramSegments.
  destruct (Split code "(" !! 1%nat) as [inner|]; [|done].
  destruct (String.eqb _ "") eqn:E; intros [= <-].
  - left. by apply String.eqb_eq in E.
  - right. split; [by apply String.eqb_neq in E|]. apply (extractLoop_describe []).
Qed.

(** A description does not depend on the segments before it. *)
Lemma describe_suffix i xs ys :
  exists front,
    describe i (xs ++ ys) = front ++ describe (i + length xs) ys
    /\ length front = length xs.
Proof.
  revert i. induction xs as [|x xs IH]; intros i.
  - exists []. by rewrite Nat.add_0_r.
  - destruct (IH (S i)) as (front & Hf & Hl). cbn [app describe]. rewrite Hf.
    replace (i + length (x :: xs))%nat with (S i + length xs)%nat by (simpl; lia).
    eexists (_ :: front). split; [reflexivity|by simpl; rewrite Hl].
Qed.


(** Segments without a type at the end of the list are described without
    a type. *)
Lemma describe_tail i run k a :
  (forall s, In s run -> declared s = ""%string) ->
  describe i run !! k = Some a -> Typ a = ""%string.
Proof.
  revert i k a. induction run as [|r run IH]; intros i k a Hr H; [done|].
  assert (Hh : forall j, headTyp (describe j run) = ""%string).
  { intros j. destruct (describe j run) as [|b l] eqn:D; [done|].
    simpl. apply (IH j 0%nat b); [by intros; apply Hr; right|by rewrite D]. }
  cbn [describe] in H. destruct k as [|k]; simpl in H.
  - injection H as <-. cbn [Typ]. rewrite (Hr r) by (by left). simpl. apply Hh.
  - apply (IH (S i) k a); [by intros; apply Hr; right|done].
Qed.

Lemma drop3_marker s : HasPrefix s "..." = true -> s = ("..." ++ drop3 s)%string.
Proof.
  intros H. apply HasPrefix_app in H as [r ->]. unfold drop3. simpl.
  rewrite Nat.sub_0_r. f_equal. f_equal. f_equal.
  induction r as [|c r IH]; simpl; [done|]. by rewrite <- IH.
Qed.

End Fields.

(** ** Compiler reports and other lines *)

Section Relocation.
Local Open Scope list_scope.

Lemma digits_no_colon s acc n : digits s acc = Some n -> hasByte ":" s = false.
Proof.
  revert acc. induction s as [|c s IH]; intros acc; [done|].
  cbn [digits hasByte]. destruct (isDigit c) eqn:D; [|done].
  intros H. rewrite (IH _ H), orb_false_r.
  destruct (Ascii.eqb ":" c) eqn:E; [|done].
  apply Ascii.eqb_eq in E as <-. done.
Qed.

(** A text [strconv.Atoi] accepts has no colon. *)
Lemma Atoi_no_colon s n : Atoi s = Some n -> hasByte ":" s = false.
Proof.
  destruct s as [|c s]; [done|]. unfold Atoi.
  destruct (Ascii.eqb c "-") eqn:Em.
  { apply Ascii.eqb_eq in Em as ->. destruct s as [|d s]; [done|].
    destruct (digits (String d s) 0) eqn:D; [|done]. intros _.
    change (hasByte ":" (String "-" (String d s)))
      with (Ascii.eqb ":" "-" || hasByte ":" (String d s)).
    by rewrite (digits_no_colon _ _ _ D). }
  destruct (Ascii.eqb c "+") eqn:Ep.
  { apply Ascii.eqb_eq in Ep as ->. destruct s as [|d s]; [done|].
    destruct (digits (String d s) 0) eqn:D; [|done]. intros _.
    change (hasByte ":" (String "+" (String d s)))
      with (Ascii.eqb ":" "+" || hasByte ":" (String d s)).
    by rewrite (digits_no_colon _ _ _ D). }
  destruct (digits (String c s) 0) eqn:D; [|done]. intros _.
  by apply (digits_no_colon _ _ _ D).
Qed.

(** The first colon of a text that has none before it. *)
Lemma cut_at_colon a b :
  hasByte ":" a = false -> cut (a ++ String ":" b)%string = (a, String ":" b).
Proof.
  induction a as [|c a IH]; intros H; [done|].
  cbn [hasByte] in H. apply orb_false_elim in H as [Hc Ha].
  change (String c a ++ String ":" b)%string with (String c (a ++ String ":" b)).
  rewrite cut_cons, Ascii.eqb_sym, Hc, (IH Ha). done.
Qed.

Lemma cut_no_colon a : hasByte ":" a = false -> cut a = (a, ""%string).
Proof.
  induction a as [|c a IH]; intros H; [done|].
  cbn [hasByte] in H. apply orb_false_elim in H as [Hc Ha].
  rewrite cut_cons, Ascii.eqb_sym, Hc, (IH Ha). done.
Qed.

Lemma HasPrefix_self p b : HasPrefix (p ++ b)%string p = true.
Proof.
  unfold HasPrefix. induction p as [|d p IH]; simpl; [by destruct b|].
  by destruct (ascii_dec d d).
Qed.

Lemma Contains_prefix s sub : HasPrefix s sub = true -> Contains s sub = true.
Proof. intros H. destruct s; cbn [Contains]; by rewrite H. Qed.

Lemma Contains_middle a sub b : Contains (a ++ sub ++ b)%string sub = true.
Proof.
  induction a as [|c a IH].
  - apply Contains_prefix. exact (HasPrefix_self sub b).
  - change (String c a ++ sub ++ b)%string with (String c (a ++ sub ++ b)).
    cbn [Contains]. rewrite IH. by rewrite orb_true_r.
Qed.

(** The line a compiler writes about line [k] of the generated file. *)
Lemma embedded_report dir numtxt rest k :
  hasByte ":" dir = false ->
  Atoi numtxt = Some k ->
  (rest = ""%string \/ exists r, rest = String ":" r) ->
  embedded (dir ++ generated ++ numtxt ++ rest)%string = Some (k, rest).
Proof.
  intros Hd Ha Hr. unfold embedded. rewrite Contains_middle.
  change (dir ++ generated ++ numtxt ++ rest)%string
    with (dir ++ "goscript.go" ++ String ":" (numtxt ++ rest))%string.
  rewrite <- append_assoc.
  rewrite cut_at_colon by (rewrite hasByte_app, Hd; done). cbn [snd].
  assert (Hc : cut (numtxt ++ rest)%string = (numtxt, rest)).
  { pose proof (Atoi_no_colon _ _ Ha) as Hn. destruct Hr as [->|[r ->]].
    - rewrite append_empty_r. by apply cut_no_colon.
    - by apply cut_at_colon. }
  rewrite Hc. cbn [fst snd]. by rewrite Ha.
Qed.

(** A line with a colon, trimmed, is not the marker. *)
Lemma colon_not_marker line :
  hasByte ":" line = true -> String.eqb (TrimSpace line) marker = false.
Proof.
  intros H. apply String.eqb_neq. intros E.
  assert (Hs : hasByte ":" (TrimSpace line) = true).
  { rewrite TrimSpace_solid; [done|by vm_compute]. }
  rewrite E in Hs. by vm_compute in Hs.
Qed.

Lemma remapLine_report n dir numtxt rest k :
  hasByte ":" dir = false ->
  Atoi numtxt = Some k ->
  (rest = ""%string \/ exists r, rest = String ":" r) ->
  remapLine n (dir ++ generated ++ numtxt ++ rest)%string = relocate n k rest.
Proof.
  intros Hd Ha Hr. unfold remapLine.
  rewrite colon_not_marker.
  - by rewrite (embedded_report _ _ _ _ Hd Ha Hr).
  - rewrite !hasByte_app. replace (hasByte ":" generated) with true by (by vm_compute).
    by rewrite orb_true_r.
Qed.

Lemma remapLine_other n line :
  String.eqb (TrimSpace line) marker = false ->
  Contains line generated = false ->
  remapLine n line = Some line.
Proof. intros H1 H2. unfold remapLine, embedded. by rewrite H1, H2. Qed.

Lemma omap_keep (f : string -> option string) ls :
  (forall l, In l ls -> f l = Some l) -> omap f ls = ls.
Proof.
  induction ls as [|l ls IH]; intros H; [done|].
  cbn [omap list_omap]. rewrite (H l) by (by left). rewrite IH; [done|].
  intros; apply H; by right.
Qed.

End Relocation.

(** ** Construction and calls, step by step *)

Section Construction.
Local Open Scope list_scope.

Local Ltac answer x k := destruct x; simpl; [k|].

(** The operations of [New], the instance it returns and the files it
    leaves, for every way the world can answer. *)
Lemma New_sequence script w :
  exists k s w',
    New script w = (Some s, w')
    /\ trace w' = trace w ++ take k (spawnSequence script w)
    /\ (err s = None -> k = 9 \/ k = 11)%nat.
Proof.
  unfold spawnSequence, harnessOf.
  unfold New, bind, read, ret, createScriptFile, TempDir, Create, perform,
    DecodeString, Decode, ReadAllStderr, Wait, bind, ret.
  destruct (templateParse w); simpl.
  { exists 0%nat. eexists _, _. split; [reflexivity|]. rewrite take_0, app_nil_r. done. }
  destruct (processScript_total script) as [[[n args] e] ->].
  destruct e; simpl.
  { exists 0%nat. eexists _, _. split; [reflexivity|]. rewrite app_nil_r. done. }
  destruct (tempDir w) as [dir e].
  destruct e; simpl.
  { exists 1%nat. eexists _, _. split; [reflexivity|]. done. }
  destruct (create w); simpl.
  { exists 2%nat. eexists _, _. split; [reflexivity|]. simpl. rewrite <- !app_assoc. done. }
  destruct (templateExecute w); simpl.
  { exists 3%nat. eexists _, _. split; [reflexivity|]. simpl. rewrite <- !app_assoc. done. }
  destruct (fileClose w); simpl.
  { exists 4%nat. eexists _, _. split; [reflexivity|]. simpl. rewrite <- !app_assoc. done. }
  destruct (stdinPipe w); simpl.
  { exists 5%nat. eexists _, _. split; [reflexivity|]. simpl. rewrite <- !app_assoc. done. }
  destruct (stdoutPipe w); simpl.
  { exists 6%nat. eexists _, _. split; [reflexivity|]. simpl. rewrite <- !app_assoc. done. }
  destruct (stderrPipe w); simpl.
  { exists 7%nat. eexists _, _. split; [reflexivity|]. simpl. rewrite <- !app_assoc. done. }
  destruct (start w); simpl.
  { exists 8%nat. eexists _, _. split; [reflexivity|]. simpl. rewrite <- !app_assoc.
    done. }
  destruct (responses w (decoded w)) as [[state|v e]|e]; simpl.
  - exists 9%nat. destruct (negb _); eexists _, _; (split; [reflexivity|]); simpl;
      rewrite <- !app_assoc; (split; [done|try done; intros _; lia]).
  - rewrite processOutput_remap. simpl. exists 11%nat.
    destruct (exitState w) as [ps|e']; simpl; [destruct (Success ps)|];
      eexists _, _; (split; [reflexivity|]); simpl; rewrite <- !app_assoc; (split; [done|try done; intros _; lia]).
  - rewrite processOutput_remap. simpl. exists 11%nat.
    destruct (exitState w) as [ps|e']; simpl; [destruct (Success ps)|];
      eexists _, _; (split; [reflexivity|]); simpl; rewrite <- !app_assoc; (split; [done|try done; intros _; lia]).
Qed.


(** The child answers the handshake with something other than the ready
    token. *)
Lemma New_wrong_token script w n args state :
  spawns w ->
  processScript script = Some (n, args, None) ->
  responses w (decoded w) = inl (MsgString state) ->
  state <> "ready"%string ->
  exists s w',
    New script w = (Some s, w')
    /\ err s = Some (errorString "goscript failed to start")
    /\ trace w' = trace w ++ take 9 (spawnSequence script w)
    /\ closeSteps s
       = [EvStdinClose; EvKill; EvStdoutClose; EvStderrClose; EvRemove (scriptFile s)].
Proof.
  intros (Hp & Ht & Hc & Hx & Hf & Hi & Ho & He & Hs) Hscr Hd Hn.
  unfold spawnSequence, harnessOf. rewrite Hscr.
  unfold New, bind, read, ret, createScriptFile, TempDir, Create, perform,
    DecodeString, Decode, ReadAllStderr, Wait, bind, ret.
  rewrite Hp, Hscr. simpl. destruct (tempDir w) as [dir oe]. simpl in Ht. subst oe.
  unfold setFiles, update, log. simpl.
  rewrite Hc. simpl. rewrite Hx. simpl. rewrite Hf. simpl. rewrite Hi. simpl.
  rewrite Ho. simpl. rewrite He. simpl. rewrite Hs. simpl. rewrite Hd. simpl.
  apply String.eqb_neq in Hn. rewrite Hn. simpl.
  eexists _, _. split; [reflexivity|]. simpl. rewrite <- !app_assoc. done.
Qed.

(** A step of [createScriptFile] after the directory fails. *)
Lemma New_generation_failure script w n args e :
  templateParse w = None ->
  processScript script = Some (n, args, None) ->
  snd (tempDir w) = None ->
  (create w = Some e
   \/ create w = None /\ templateExecute w = Some e
   \/ create w = None /\ templateExecute w = None /\ fileClose w = Some e) ->
  exists s w',
    New script w = (Some s, w')
    /\ err s = Some e
    /\ scriptFile s = ""%string
    /\ closeSteps s = [EvRemove ""%string]
    /\ In (fst (tempDir w)) (files w')
    /\ forall path, In path (files w) -> In path (files w').
Proof.
  intros Hp Hscr Ht H.
  unfold New, bind, read, ret, createScriptFile, TempDir, Create, perform, bind, ret.
  rewrite Hp, Hscr. simpl. destruct (tempDir w) as [dir oe]. simpl in Ht. subst oe.
  unfold setFiles, update, log. simpl.
  destruct H as [Hc|[(Hc & Hx)|(Hc & Hx & Hf)]]; rewrite Hc; simpl.
  - eexists _, _. split; [reflexivity|]. simpl. repeat split; try done.
    + apply in_or_app. right. by left.
    + intros path Hin. apply in_or_app. by left.
  - rewrite Hx. simpl. eexists _, _. split; [reflexivity|]. simpl. repeat split; try done.
    + apply in_or_app. left. apply in_or_app. right. by left.
    + intros path Hin. apply in_or_app. left. apply in_or_app. by left.
  - rewrite Hx. simpl. rewrite Hf. simpl.
    eexists _, _. split; [reflexivity|]. simpl. repeat split; try done.
    + apply in_or_app. left. apply in_or_app. right. by left.
    + intros path Hin. apply in_or_app. left. apply in_or_app. by left.
Qed.

(** A call on a ready instance. *)
Lemma Execute_ready s args w :
  ready s -> err s = None ->
  fst (Execute s args w) = Some (callResult w)
  /\ trace (snd (Execute s args w)) = trace w ++ callSteps args w
  /\ diagnostics (snd (Execute s args w)) = diagnostics w.
Proof.
  intros Hr He. pose proof Hr as (_ & Henc & _ & Hdec & _).
  unfold Execute, callResult, callSteps, bind, emit, defer, Encode, DecodeResponse,
    Decode, bind, ret.
  rewrite He, Henc, Hdec. unfold update, log. simpl.
  destruct (requests w (encoded w)) as [e|]; simpl.
  - rewrite (cmdErr_ready _ _ _ Hr). simpl. rewrite <- !app_assoc. done.
  - destruct (responses w (decoded w)) as [[state|v e]|e]; simpl;
      rewrite ?(cmdErr_ready _ _ _ Hr); simpl; rewrite <- !app_assoc; done.
Qed.

(** Removing twice is removing once. *)
Lemma Remove_again path w :
  files (snd (Remove path (snd (Remove path w)))) = files (snd (Remove path w)).
Proof.
  unfold Remove at 2 3.
  destruct (cleanup w (EvRemove path)) eqn:Ec; simpl.
  - unfold Remove. simpl. by rewrite Ec.
  - destruct (existsb (String.eqb path) (files w)
              && negb (existsb (fun q => HasPrefix q (path ++ "/")%string) (files w))) eqn:Ex;
      simpl.
    + unfold Remove. simpl. rewrite Ec.
      assert (Hn : existsb (String.eqb path)
                (List.filter (fun q => negb (String.eqb path q)) (files w)) = false).
      { apply not_true_iff_false. intros H. apply existsb_exists in H as (x & Hx & E).
        apply filter_In in Hx as [_ Hx]. by rewrite E in Hx. }
      rewrite Hn. done.
    + unfold Remove. simpl. by rewrite Ec, Ex.
Qed.

End Construction.

(** ** Teardown, and the wrapper of the rename example *)

Section Teardown.
Local Open Scope list_scope.

Lemma Remove_files path w1 w2 :
  cleanup w1 = cleanup w2 -> files w1 = files w2 ->
  files (snd (Remove path w1)) = files (snd (Remove path w2)).
Proof.
  intros Hc Hf. unfold Remove. rewrite Hc, Hf.
  destruct (cleanup w2 (EvRemove path)); simpl; [done|].
  destruct (_ && _); simpl; [|done]. done.
Qed.

Lemma Close_files s w :
  files (snd (Close s w)) = files (snd (Remove (scriptFile s) w))
  /\ cleanup (snd (Close s w)) = cleanup w.
Proof.
  unfold Close, defer, bind, attempt, ret.
  destruct (stdin s), (cmd s) as [[[] [[]|]]|], (stdout s), (stderr s); simpl;
    (split; [apply Remove_files; done|]);
    unfold Remove; simpl;
    repeat (match goal with |- context [match ?x with _ => _ end] => destruct x end; simpl);
    done.
Qed.

Lemma Close_again s w :
  files (snd (Close s (snd (Close s w)))) = files (snd (Close s w)).
Proof.
  destruct (Close_files s w) as [Hf Hc].
  destruct (Close_files s (snd (Close s w))) as [Hf2 _].
  rewrite Hf2. rewrite (Remove_files _ _ (snd (Remove (scriptFile s) w))).
  - rewrite Remove_again. by rewrite Hf.
  - rewrite Hc. unfold Remove. simpl.
    repeat (match goal with |- context [match ?x with _ => _ end] => destruct x end; simpl); done.
  - done.
Qed.

End Teardown.

Section Wrapper.
Local Open Scope list_scope.

Lemma scriptLoop_skip n l rest :
  HasPrefix (TrimSpace l) "func goscript(" = false ->
  scriptLoop n (l :: rest) = scriptLoop (n + 1) rest.
Proof. intros H. cbn [scriptLoop]. by rewrite H. Qed.

Lemma scriptLoop_hit n l rest args :
  HasPrefix (TrimSpace l) "func goscript(" = true ->
  extractArguments (TrimSpace l) = Some args ->
  scriptLoop n (l :: rest) = Some (n + 1, args, None).
Proof. intros H E. cbn [scriptLoop]. by rewrite H, E. Qed.

Lemma tokens_cons l rest :
  fits l = true -> tokens (l :: rest) = dropCR l :: tokens rest.
Proof. intros H. cbn [tokens]. by rewrite H. Qed.

(** The lines of the wrapper up to the declaration, for each list of
    imports. *)
Lemma processScript_after lines rest :
  forallb (fun l => negb (hasByte (byte 10) l) && fits l
                    && negb (HasPrefix (TrimSpace (dropCR l)) "func goscript(")) lines = true ->
  processScript (unlines lines ++ declaration ++ nl ++ rest)
  = Some (Z.of_nat (length lines) + 1, [mkArg 0 "filename" "string"], None).
Proof.
  intros H. unfold processScript, Scan.
  rewrite rawLines_unlines.
  2:{ apply forallb_forall. intros l Hl. rewrite forallb_forall in H.
      specialize (H l Hl). by apply andb_prop in H as [H _]; apply andb_prop in H as [H _]. }
  rewrite (rawLines_line declaration) by (by vm_compute).
  assert (G : forall n, scriptLoop n (tokens (lines ++ declaration :: rawLines rest))
                        = Some (n + Z.of_nat (length lines) + 1,
                                [mkArg 0 "filename" "string"], None)).
  { induction lines as [|l lines IH]; intros n.
    - cbn [app]. rewrite tokens_cons by (by vm_compute).
      rewrite (scriptLoop_hit _ _ _ [mkArg 0 "filename" "string"]); try (by vm_compute).
      f_equal. f_equal. f_equal. simpl. lia.
    - cbn [forallb] in H. apply andb_prop in H as [Hl Hls].
      apply andb_prop in Hl as [Hl Hp]. apply andb_prop in Hl as [_ Hf].
      apply negb_true_iff in Hp.
      cbn [app]. rewrite tokens_cons by done. rewrite scriptLoop_skip by done.
      rewrite (IH Hls). f_equal. f_equal. f_equal. rewrite length_cons. lia. }
  rewrite G. f_equal.
Qed.

End Wrapper.

(** ** The signature extractor, further *)

Section Extras.
Local Open Scope list_scope.

(** X1. [processScript] never panics.  Either it finds a declaration, and
    the number it returns is that of a line of the snippet, or it reports
    that the entry point is missing, and then no line the scanner delivered
    begins, trimmed, with the declaration prefix. *)
Theorem processScript_outcome (script : string) :
  (exists n args,
     processScript script = Some (n, args, None)
     /\ 1 <= n <= Z.of_nat (length (Scan script)))
  \/ (processScript script = Some (0, [], Some (errorString "missing func goscript"))
      /\ forall l, In l (Scan script) ->
                   HasPrefix (TrimSpace l) "func goscript(" = false).
Proof.
  destruct (processScript_total script) as [[[n args] e] H].
  destruct e as [e|].
  - right. unfold processScript in *.
    assert (G : forall k lines m a e0,
              scriptLoop k lines = Some (m, a, Some e0) ->
              (m, a, e0) = (0, [], errorString "missing func goscript")
              /\ forall l, In l lines -> HasPrefix (TrimSpace l) "func goscript(" = false).
    { clear. intros k lines. revert k.
      induction lines as [|l lines IH]; intros k m a e0; simpl.
      - intros [= <- <- <-]. done.
      - destruct (HasPrefix (TrimSpace l) "func goscript(") eqn:E; simpl.
        + by destruct (extractArguments _).
        + intros H. destruct (IH _ _ _ _ H) as [H1 H2]. split; [done|].
          intros l' [<-|Hin]; auto. }
    destruct (G _ _ _ _ _ H) as [[= -> -> ->] H2]. done.
  - left. exists n, args. split; [done|].
    apply scriptLoop_found in H. lia.
Qed.

(** X2. The declaration [processScript] reports is the first line that
    begins, trimmed, with the prefix: the number is its 1-based line number
    and the descriptors are those of that line. *)
Theorem processScript_first_declaration
  (script : string) (n : Z) (args : list arg) :
  processScript script = Some (n, args, None) ->
  exists before text after,
    Scan script = before ++ text :: after
    /\ n = Z.of_nat (length before) + 1
    /\ HasPrefix (TrimSpace text) "func goscript(" = true
    /\ extractArguments (TrimSpace text) = Some args
    /\ forall l, In l before -> HasPrefix (TrimSpace l) "func goscript(" = false.
Proof.
  intros H. apply scriptLoop_declaration in H
    as (before & text & after & H1 & H2 & H3 & H4 & H5).
  exists before, text, after. repeat split; try done; lia.
Qed.

Lemma processScript_first_declaration_witness :
  processScript joiner
  = Some (4, [mkArg 0 "separator" "string"; mkArg 1 "items" ""], None)
  /\ exists before text after,
       Scan joiner = before ++ text :: after
       /\ 4 = Z.of_nat (length before) + 1
       /\ HasPrefix (TrimSpace text) "func goscript(" = true
       /\ extractArguments (TrimSpace text)
          = Some [mkArg 0 "separator" "string"; mkArg 1 "items" ""]
       /\ forall l, In l before -> HasPrefix (TrimSpace l) "func goscript(" = false.
Proof.
  split; [by vm_compute|].
  apply (processScript_first_declaration joiner). by vm_compute.
Defined.

(** X3. [extractArguments] returns no descriptor when the parameter text is
    empty or begins with a comma; otherwise it returns one descriptor for
    each comma-segment, in order, whose index is its position and whose name
    is the first field of the segment. *)
Theorem extractArguments_positions (code : string) (args : list arg) :
  extractArguments code = Some args ->
  (List.hd ""%string (paramSegments code) = ""%string /\ args = [])
  \/ (List.hd ""%string (paramSegments code) <> ""%string
      /\ length args = length (paramSegments code)
      /\ forall (i : nat) (a : arg),
           args !! i = Some a ->
           Index a = Z.of_nat i
           /\ exists seg, paramSegments code !! i = Some seg
                          /\ Name a = fst (fields seg)).
Proof.
  intros H. destruct (extractArguments_cases _ _ H) as [[H1 ->]|[H1 ->]]; [by left|right].
  split; [done|]. split; [apply describe_length|].
  intros i a Ha. destruct (describe_entries _ _ _ _ Ha) as (Hi & Hn & _). done.
Qed.

Lemma extractArguments_positions_witness :
  let code := "func goscript(one, two, three string, age int)"%string in
  let args := [mkArg 0 "one" "string"; mkArg 1 "two" "string";
               mkArg 2 "three" "string"; mkArg 3 "age" "int"] in
  extractArguments code = Some args
  /\ ((List.hd ""%string (paramSegments code) = ""%string /\ args = [])
      \/ (List.hd ""%string (paramSegments code) <> ""%string
          /\ length args = length (paramSegments code)
          /\ forall (i : nat) (a : arg),
               args !! i = Some a ->
               Index a = Z.of_nat i
               /\ exists seg, paramSegments code !! i = Some seg
                              /\ Name a = fst (fields seg))).
Proof.
  split; [by vm_compute|].
  apply (extractArguments_positions "func goscript(one, two, three string, age int)").
  by vm_compute.
Defined.



(** X5. Segments without a type that no typed segment follows keep the
    empty type. *)
Theorem extractArguments_untyped_tail
  (code : string) (args : list arg) (pre run : list string) (k : nat) (a : arg) :
  extractArguments code = Some args ->
  paramSegments code = pre ++ run ->
  (forall s, In s run -> declared s = ""%string) ->
  (length pre <= k)%nat ->
  args !! k = Some a ->
  Typ a = ""%string.
Proof.
  intros He Hs Hr Hk Ha.
  destruct (extractArguments_cases _ _ He) as [[_ ->]|[_ ->]]; [done|].
  rewrite Hs in Ha. destruct (describe_suffix 0 pre run) as (front & Hf & Hl).
  rewrite Hf in Ha. rewrite lookup_app_r in Ha by lia.
  by apply (describe_tail (0 + length pre) run (k - length front) a).
Qed.

Lemma extractArguments_untyped_tail_witness :
  let code := "func goscript(separator string, items) (string, error) {"%string in
  let args := [mkArg 0 "separator" "string"; mkArg 1 "items" ""] in
  extractArguments code = Some args
  /\ paramSegments code = ["separator string"%string] ++ [" items"%string]
  /\ Typ (mkArg 1 "items" "") = ""%string.
Proof.
  split; [by vm_compute|]. split; [by vm_compute|].
  apply (extractArguments_untyped_tail
           "func goscript(separator string, items) (string, error) {"
           [mkArg 0 "separator" "string"; mkArg 1 "items" ""]
           ["separator string"%string] [" items"%string] 1%nat).
  - by vm_compute.
  - by vm_compute.
  - intros s [<-|[]]. by vm_compute.
  - simpl. lia.
  - done.
Defined.

(** X6. No name and no type of a descriptor contains a space, a comma or a
    parenthesis. *)
Theorem extractArguments_tokens (code : string) (args : list arg) (a : arg) :
  extractArguments code = Some args ->
  In a args ->
  forallb (fun c => negb (hasByte c (Name a)) && negb (hasByte c (Typ a)))
    [" "; ","; "("; ")"]%char = true.
Proof.
  intros He Ha.
  destruct (extractArguments_cases _ _ He) as [[_ ->]|[_ ->]]; [done|].
  apply list_elem_of_In, list_elem_of_lookup_1 in Ha as [k Hk].
  destruct (describe_entries _ _ _ _ Hk) as (_ & (seg & Hs & Hn) & Ht).
  apply list_elem_of_lookup_2, list_elem_of_In in Hs.
  destruct (paramSegments_pieces _ _ Hs) as (Hc & Ho & Hcl).
  destruct (fields_pieces seg (Name a) (or_introl Hn)) as [Hsp Hsub].
  assert (Hname : forall c, hasByte c seg = false -> hasByte c (Name a) = false).
  { intros c Hf. destruct (hasByte c (Name a)) eqn:E; [|done]. apply Hsub in E. congruence. }
  assert (Htyp : forall c, (forall s, In s (paramSegments code) -> hasByte c s = false) ->
                           hasByte c (Typ a) = false).
  { intros c Hall. destruct Ht as [->|(s & Hin & Hsnd)]; [done|].
    destruct (fields_pieces s (Typ a) (or_intror Hsnd)) as [_ Hsub'].
    destruct (hasByte c (Typ a)) eqn:E; [|done]. apply Hsub' in E.
    rewrite (Hall s Hin) in E. done. }
  assert (Hts : hasByte " " (Typ a) = false).
  { destruct Ht as [->|(s & Hin & Hsnd)]; [done|].
    by destruct (fields_pieces s (Typ a) (or_intror Hsnd)) as [H _]. }
  cbn [forallb].
  rewrite Hsp, Hts, (Hname _ Hc), (Hname _ Ho), (Hname _ Hcl).
  rewrite (Htyp ","%char), (Htyp "("%char), (Htyp ")"%char); try done;
    intros s Hin; by destruct (paramSegments_pieces _ _ Hin) as (? & ? & ?).
Qed.

Lemma extractArguments_tokens_witness :
  let code := "func goscript(separator string, items ...string)"%string in
  let args := [mkArg 0 "separator" "string"; mkArg 1 "items" "...string"] in
  let a := mkArg 1 "items" "...string" in
  extractArguments code = Some args
  /\ In a args
  /\ forallb (fun c => negb (hasByte c (Name a)) && negb (hasByte c (Typ a)))
       [" "; ","; "("; ")"]%char = true.
Proof.
  split; [by vm_compute|]. split; [by right; left|].
  apply (extractArguments_tokens
           "func goscript(separator string, items ...string)"
           [mkArg 0 "separator" "string"; mkArg 1 "items" "...string"]).
  - by vm_compute.
  - by right; left.
Defined.

(** X7. The methods of a descriptor agree: the declared type is the
    element type with the marker in front exactly when the descriptor is
    variadic, the visible type is then the slice of the element type, and
    the argument name then carries the marker behind. *)
Theorem arg_methods_agree (a : arg) :
  Typ a = ((if Variadic a then "..." else "") ++ TypenameSingular a)%string
  /\ Typename a = ((if Variadic a then "[]" else "") ++ TypenameSingular a)%string
  /\ Argname a = (Name a ++ (if Variadic a then "..." else ""))%string.
Proof.
  unfold Typename, TypenameSingular, Argname.
  destruct (Variadic a) eqn:E.
  - unfold Variadic in E. split; [by apply drop3_marker|done].
  - by rewrite append_empty_r.
Qed.

End Extras.

(** ** The remapper and the generator, further *)

Section ExtrasRemapper.
Local Open Scope list_scope.

Lemma Atoi_range s k : Atoi s = Some k -> minInt <= k <= maxInt.
Proof.
  assert (R : forall z, inRange z = Some k -> minInt <= k <= maxInt).
  { intros z. unfold inRange. destruct (_ && _) eqn:E; [|done].
    intros [= ->]. apply andb_prop in E as [E1 E2]. lia. }
  destruct s as [|c s]; [done|]. unfold Atoi.
  destruct (Ascii.eqb c "-").
  { destruct s; [done|]. destruct (digits _ 0); [|done]. apply R. }
  destruct (Ascii.eqb c "+").
  { destruct s; [done|]. destruct (digits _ 0); [|done]. apply R. }
  destruct (digits _ 0); [|done]. apply R.
Qed.

Lemma wrap_small z : minInt <= z <= maxInt -> wrap z = z.
Proof.
  intros H. unfold wrap. rewrite Z.mod_small; [lia|].
  unfold minInt, maxInt, intSize in *. lia.
Qed.

(** X8. What the Go compiler writes about line [k] of the generated file,
    after its marker line, is shown as a report about line [k - 12] of the
    snippet, the rest of the line kept, as long as that line is not beyond
    the line count given. *)
Theorem processOutput_compiler_report
  (scriptLines : Z) (out first dir numtxt rest : string) (k : Z) :
  Scan out = [first; (dir ++ generated ++ numtxt ++ rest)%string] ->
  TrimSpace first = marker ->
  hasByte ":" dir = false ->
  Atoi numtxt = Some k ->
  (rest = ""%string \/ exists r, rest = String ":" r) ->
  minInt + 12 <= k ->
  k - 12 <= scriptLines ->
  processOutput scriptLines out
  = Some ("goscript:" ++ Itoa (k - 12) ++ rest)%string.
Proof.
  intros Hs Hm Hd Ha Hr Hlo Hhi.
  rewrite processOutput_remap. unfold remap. rewrite Hs. cbn [omap list_omap].
  assert (H1 : remapLine scriptLines first = None).
  { unfold remapLine. by rewrite Hm, String.eqb_refl. }
  rewrite H1, (remapLine_report _ _ _ _ _ Hd Ha Hr).
  unfold relocate, sub. replace offset with 12 by (by vm_compute).
  pose proof (Atoi_range _ _ Ha) as Hk.
  rewrite wrap_small by lia.
  destruct (Z.gtb_spec (k - 12) scriptLines); [lia|]. done.
Qed.

Lemma processOutput_compiler_report_witness :
  Scan mixed
  = [marker;
     ("/tmp/goscript1/" ++ generated ++ "16"
      ++ ": syntax error: mixed named and unnamed function parameters")%string]
  /\ Atoi "16" = Some 16
  /\ processOutput 4 mixed
     = Some ("goscript:" ++ Itoa (16 - 12)
             ++ ": syntax error: mixed named and unnamed function parameters")%string.
Proof.
  split; [by vm_compute|]. split; [by vm_compute|].
  apply (processOutput_compiler_report 4 mixed marker "/tmp/goscript1/" "16"
           ": syntax error: mixed named and unnamed function parameters" 16).
  - by vm_compute.
  - by vm_compute.
  - by vm_compute.
  - by vm_compute.
  - right. by eexists.
  - by vm_compute.
  - lia.
Defined.

(** X9. A text without the marker line and without a line that names the
    generated file comes back line by line as it is, the lines joined by
    newlines. *)
Theorem processOutput_other_lines (scriptLines : Z) (out : string) :
  (forall l, In l (Scan out) ->
             String.eqb (TrimSpace l) marker = false
             /\ Contains l generated = false) ->
  processOutput scriptLines out = Some (Join (Scan out) nl).
Proof.
  intros H. rewrite processOutput_remap. unfold remap. f_equal. f_equal.
  apply omap_keep. intros l Hl. destruct (H l Hl). by apply remapLine_other.
Qed.

Lemma processOutput_other_lines_witness :
  let out := ("panic: boom" ++ nl ++ nl ++ "goroutine 1 [running]:" ++ nl)%string in
  Scan out = ["panic: boom"; ""; "goroutine 1 [running]:"]%string
  /\ processOutput 4 out = Some (Join (Scan out) nl).
Proof.
  split; [by vm_compute|].
  apply processOutput_other_lines.
  intros l Hl. vm_compute in Hl. destruct Hl as [<-|[<-|[<-|[]]]]; by vm_compute.
Defined.

(** X10. Executing the harness template never fails, and the program it
    writes is the header, the snippet as it is, the decoding of a request,
    the bindings of the descriptors in their order, and the call of the
    entry point with the argument list. *)
Theorem ExecuteTemplate_layout (data : harnessData) :
  Parse scriptHarnessCode = Some harnessNodes
  /\ ExecuteTemplate data
     = Some (header ++ Goscript data ++ opening ++ bindings (InArgs data)
             ++ calling ++ ArgsList data ++ closing)%string.
Proof. split; [apply Parse_harness|apply ExecuteTemplate_program]. Qed.

(** X11. Line [i] of the snippet is line [scriptStartLine + i] of the
    generated program: the offset the remapper subtracts is the place of
    the snippet in the file the compiler reads. *)
Theorem generated_snippet_lines
  (script : string) (args : list arg) (i : nat) (line : string) :
  rawLines script !! i = Some line ->
  exists text,
    ExecuteTemplate (harnessOf script args) = Some text
    /\ rawLines text !! (Z.to_nat scriptStartLine + i)%nat = Some line.
Proof.
  intros H. exists (program (harnessOf script args)).
  split; [apply ExecuteTemplate_program|]. by apply program_lines.
Qed.

Lemma generated_snippet_lines_witness :
  rawLines joiner !! 3%nat
  = Some "func goscript(separator string, items) (string, error) {"%string
  /\ Z.to_nat scriptStartLine = 12%nat
  /\ exists text,
       ExecuteTemplate
         (harnessOf joiner [mkArg 0 "separator" "string"; mkArg 1 "items" ""])
       = Some text
       /\ rawLines text !! (Z.to_nat scriptStartLine + 3)%nat
          = Some "func goscript(separator string, items) (string, error) {"%string.
Proof.
  split; [by vm_compute|]. split; [by vm_compute|].
  apply generated_snippet_lines. by vm_compute.
Defined.

End ExtrasRemapper.

(** ** The life of an instance, further *)

Section ExtrasLifecycle.
Local Open Scope list_scope.

(** X12. [New] never panics and stops at the first failure: what it does
    is always an initial part of one fixed sequence (directory, file,
    template, close, the three pipes, start, handshake, reading the
    diagnostics, waiting), and an instance without an error has gone through
    the handshake. *)
Theorem New_operations_in_order (script : string) (w : World) :
  exists (k : nat) (s : Script) (w' : World),
    New script w = (Some s, w')
    /\ trace w' = trace w ++ take k (spawnSequence script w)
    /\ (err s = None -> k = 9%nat \/ k = 11%nat).
Proof. apply New_sequence. Qed.

(** X13. An instance [New] returns without an error has its three streams
    and both codecs, and a started process whose recorded state, if there
    is one, is a successful exit. *)
Theorem New_instance_ready (script : string) (w : World) :
  exists (s : Script) (w' : World),
    New script w = (Some s, w')
    /\ (err s = None ->
        stdin s = true /\ stdinencoder s = true /\ stdout s = true
        /\ stdoutdecoder s = true /\ stderr s = true
        /\ exists c, cmd s = Some c /\ Process c = true
                     /\ (ProcState c = None
                         \/ exists ps, ProcState c = Some ps /\ Success ps = true)).
Proof. apply New_spec. Qed.

(** X14. When the child answers the handshake with another token than
    ready, the instance carries the error goscript failed to start; the
    child is neither waited for nor stopped by [New], and [Close] kills
    it. *)
Theorem New_token_mismatch
  (script : string) (w : World) (n : Z) (args : list arg) (state : string) :
  spawns w ->
  processScript script = Some (n, args, None) ->
  responses w (decoded w) = inl (MsgString state) ->
  state <> "ready"%string ->
  exists (s : Script) (w' : World),
    New script w = (Some s, w')
    /\ err s = Some (errorString "goscript failed to start")
    /\ trace w' = trace w ++ take 9 (spawnSequence script w)
    /\ closeSteps s
       = [EvStdinClose; EvKill; EvStdoutClose; EvStderrClose; EvRemove (scriptFile s)].
Proof. apply New_wrong_token. Qed.

Lemma New_token_mismatch_witness :
  let w := calm (fun _ => inl (MsgString "steady")) (inl (Signaled "killed")) "" in
  spawns w
  /\ processScript seven = Some (2, [], None)
  /\ exists (s : Script) (w' : World),
       New seven w = (Some s, w')
       /\ err s = Some (errorString "goscript failed to start")
       /\ trace w' = trace w ++ take 9 (spawnSequence seven w)
       /\ closeSteps s
          = [EvStdinClose; EvKill; EvStdoutClose; EvStderrClose; EvRemove (scriptFile s)].
Proof.
  split; [by vm_compute|]. split; [by vm_compute|].
  apply (New_token_mismatch seven
           (calm (fun _ => inl (MsgString "steady")) (inl (Signaled "killed")) "")
           2 [] "steady"); by vm_compute.
Defined.

(** X15. When the decoding of the handshake fails and waiting for the
    child reports a failure, the instance carries an error whose text is
    the remapped diagnostic text, read before the wait. *)
Theorem New_handshake_diagnostic
  (script : string) (w : World) (n : Z) (args : list arg)
  (e : goerror) (ps : ProcessState) :
  spawns w ->
  processScript script = Some (n, args, None) ->
  responses w (decoded w) = inr e ->
  exitState w = inl ps ->
  Success ps = false ->
  exists (s : Script) (w' : World),
    New script w = (Some s, w')
    /\ option_map ErrorText (err s) = processOutput n (diagnostics w)
    /\ trace w' = trace w ++ take 11 (spawnSequence script w).
Proof.
  intros Hsp Hscr Hd Hx Hn.
  destruct (New_handshake_failure _ _ _ _ _ _ Hsp Hscr Hd Hx Hn)
    as (s & w' & HN & He & Ht & _).
  exists s, w'. split; [done|]. split; [by rewrite processOutput_remap|].
  destruct (New_sequence script w) as (k & s' & w'' & HN' & Htr & _).
  rewrite HN in HN'. injection HN' as <- <-.
  destruct Hsp as (Hp & Ht' & Hc & Hxx & Hf & Hi & Ho & Her & Hs).
  revert HN Htr. unfold spawnSequence, harnessOf. rewrite Hscr.
  unfold New, bind, read, ret, createScriptFile, TempDir, Create, perform,
    DecodeString, Decode, ReadAllStderr, Wait, bind, ret.
  rewrite Hp, Hscr. simpl. destruct (tempDir w) as [dir oe]. simpl in Ht'. subst oe.
  unfold setFiles, update, log. simpl.
  rewrite Hc. simpl. rewrite Hxx. simpl. rewrite Hf. simpl. rewrite Hi. simpl.
  rewrite Ho. simpl. rewrite Her. simpl. rewrite Hs. simpl. rewrite Hd. simpl.
  rewrite processOutput_remap. simpl. rewrite Hx, Hn. simpl.
  intros [= <- <-] _. simpl. rewrite <- !app_assoc. done.
Qed.

Lemma New_handshake_diagnostic_witness :
  let w := calm silent (inl (Exit 1)) mixed in
  spawns w
  /\ processScript joiner
     = Some (4, [mkArg 0 "separator" "string"; mkArg 1 "items" ""], None)
  /\ processOutput 4 mixed
     = Some "goscript:4: syntax error: mixed named and unnamed function parameters"%string
  /\ exists (s : Script) (w' : World),
       New joiner w = (Some s, w')
       /\ option_map ErrorText (err s) = processOutput 4 (diagnostics w)
       /\ trace w' = trace w ++ take 11 (spawnSequence joiner w).
Proof.
  split; [by vm_compute|]. split; [by vm_compute|]. split; [by vm_compute|].
  apply (New_handshake_diagnostic joiner (calm silent (inl (Exit 1)) mixed) 4
           [mkArg 0 "separator" "string"; mkArg 1 "items" ""] EOF (Exit 1));
    by vm_compute.
Defined.

(** X16. When a step of [createScriptFile] after the making of the
    directory fails, the instance carries that error and an empty script
    path, so that [Close] has nothing but the empty path to remove: the
    directory stays, with everything that was there before. *)
Theorem New_generation_failure_leaves_files
  (script : string) (w : World) (n : Z) (args : list arg) (e : goerror) :
  templateParse w = None ->
  processScript script = Some (n, args, None) ->
  snd (tempDir w) = None ->
  (create w = Some e
   \/ create w = None /\ templateExecute w = Some e
   \/ create w = None /\ templateExecute w = None /\ fileClose w = Some e) ->
  exists (s : Script) (w' : World),
    New script w = (Some s, w')
    /\ err s = Some e
    /\ scriptFile s = ""%string
    /\ closeSteps s = [EvRemove ""%string]
    /\ In (fst (tempDir w)) (files w')
    /\ forall path, In path (files w) -> In path (files w').
Proof. apply New_generation_failure. Qed.

Lemma New_generation_failure_leaves_files_witness :
  let w := mkWorld None ("/tmp/goscript1"%string, None) None
             (Some (external "template: no such field")) None None None None None
             (fun _ => None) silent (inl (Exit 0)) (fun _ => None) "" 0 0 [] [] in
  processScript seven = Some (2, [], None)
  /\ exists (s : Script) (w' : World),
       New seven w = (Some s, w')
       /\ err s = Some (external "template: no such field")
       /\ scriptFile s = ""%string
       /\ closeSteps s = [EvRemove ""%string]
       /\ In (fst (tempDir w)) (files w')
       /\ forall path, In path (files w) -> In path (files w').
Proof.
  split; [by vm_compute|].
  apply (New_generation_failure_leaves_files seven _ 2 []).
  - done.
  - by vm_compute.
  - done.
  - right. left. done.
Defined.

(** X17. A call on an instance [New] returned without an error takes the
    lock, writes one request with the arguments as given (the empty slice
    when there are none), reads one response unless the write failed, and
    releases the lock; it never reads the diagnostic stream.  When both
    steps succeed its result is the value and the error of the response,
    untouched. *)
Theorem Execute_protocol
  (script : string) (w0 : World) (s : Script) (args : slice) (w : World) :
  fst (New script w0) = Some s ->
  err s = None ->
  fst (Execute s args w) = Some (callResult w)
  /\ trace (snd (Execute s args w)) = trace w ++ callSteps args w
  /\ diagnostics (snd (Execute s args w)) = diagnostics w.
Proof.
  intros HN He. apply Execute_ready; [|done]. by apply (New_ready script w0).
Qed.

Lemma Execute_protocol_witness :
  let w0 := calm (serving [MsgResponse (VString "Hello Mat") None])
              (inl (Signaled "killed")) "" in
  let s := mkScript None "/tmp/goscript1/goscript.go" 2
             (Some (mkCmd true None)) true true true true true in
  let args := Some [VString "Hello"; VString "Mat"] in
  let w := snd (New greeting w0) in
  fst (New greeting w0) = Some s
  /\ err s = None
  /\ callResult w = (VString "Hello Mat", None)
  /\ callSteps args w = [EvLock; EvEncode args; EvDecode; EvUnlock]
  /\ fst (Execute s args w) = Some (callResult w)
  /\ trace (snd (Execute s args w)) = trace w ++ callSteps args w
  /\ diagnostics (snd (Execute s args w)) = diagnostics w.
Proof.
  split; [by vm_compute|]. split; [done|]. split; [by vm_compute|].
  split; [by vm_compute|].
  apply (Execute_protocol greeting
           (calm (serving [MsgResponse (VString "Hello Mat") None])
              (inl (Signaled "killed")) "")); by vm_compute.
Defined.

(** X18. [Close] returns nil in every state of the instance and of the
    world, and attempts the same steps in the same order whatever each of
    them returns: the request stream if there is one, the kill unless the
    process was never started or its recorded state is an exit, the two
    output streams if there are, and at last the removal of the script
    file. *)
Theorem Close_steps (s : Script) (w : World) :
  fst (Close s w) = Some None
  /\ trace (snd (Close s w)) = trace w ++ closeSteps s.
Proof. split; [apply Close_returns_nil|apply Close_trace]. Qed.

(** X19. [Close] removes nothing but the script file: every other path,
    the directory of the script file among them, is still there. *)
Theorem Close_removes_only_script (s : Script) (w : World) (path : string) :
  In path (files w) ->
  path <> scriptFile s ->
  In path (files (snd (Close s w))).
Proof. apply Close_keeps. Qed.

Lemma Close_removes_only_script_witness :
  let w := calm (serving []) (inl (Signaled "killed")) "" in
  let s := mkScript None "/tmp/goscript1/goscript.go" 2
             (Some (mkCmd true None)) true true true true true in
  let w1 := snd (New seven w) in
  fst (New seven w) = Some s
  /\ In "/tmp/goscript1"%string (files w1)
  /\ "/tmp/goscript1"%string <> scriptFile s
  /\ In "/tmp/goscript1"%string (files (snd (Close s w1))).
Proof.
  split; [by vm_compute|]. split; [vm_compute; by left|]. split; [done|].
  apply Close_removes_only_script; [vm_compute; by left|done].
Defined.

(** X20. A second [Close] returns nil, attempts the same steps once more
    and leaves the files as the first one left them. *)
Theorem Close_repeated (s : Script) (w : World) :
  fst (Close s (snd (Close s w))) = Some None
  /\ trace (snd (Close s (snd (Close s w))))
     = trace w ++ closeSteps s ++ closeSteps s
  /\ files (snd (Close s (snd (Close s w)))) = files (snd (Close s w)).
Proof.
  split; [apply Close_returns_nil|]. split; [|apply Close_again].
  by rewrite !Close_trace, <- app_assoc.
Qed.

(** X21. Whatever the user's text is, the snippet the rename example
    builds around it declares the entry point on line 4 plus the number of
    imports, with the one descriptor filename of type string. *)
Theorem rename_wrapper_signature (script : string) :
  processScript (fullscript script)
  = Some (4 + importCount script, [mkArg 0 "filename" "string"], None).
Proof.
  pose (rest := ((tab ++ tab ++ "var out string" ++ nl ++ tab ++ tab) ++ script
                 ++ (nl ++ tab ++ tab ++ "return out, nil" ++ nl ++ "}" ++ nl ++ tab))%string).
  unfold fullscript, imports, importCount, allowedImports.
  cbn [importsLoop List.filter].
  destruct (Contains script ("filepath" ++ ".")), (Contains script ("strings" ++ "."));
    cbn [List.length].
  - change (processScript
              (unlines [""; "import (" ++ quoted "filepath"; quoted "strings"; ")"; ""]%string
               ++ declaration ++ nl ++ rest)
            = Some (4 + Z.of_nat 2, [mkArg 0 "filename" "string"], None)).
    by rewrite processScript_after by (by vm_compute).
  - change (processScript
              (unlines [""; "import (" ++ quoted "filepath"; ")"; ""]%string
               ++ declaration ++ nl ++ rest)
            = Some (4 + Z.of_nat 1, [mkArg 0 "filename" "string"], None)).
    by rewrite processScript_after by (by vm_compute).
  - change (processScript
              (unlines [""; "import (" ++ quoted "strings"; ")"; ""]%string
               ++ declaration ++ nl ++ rest)
            = Some (4 + Z.of_nat 1, [mkArg 0 "filename" "string"], None)).
    by rewrite processScript_after by (by vm_compute).
  - change (processScript
              (unlines [""; "import ()"; ""]%string ++ declaration ++ nl ++ rest)
            = Some (4 + Z.of_nat 0, [mkArg 0 "filename" "string"], None)).
    by rewrite processScript_after by (by vm_compute).
Qed.

End ExtrasLifecycle.

(** ** The scanner's limit, and the marker *)

Section ExtrasScanner.
Local Open Scope list_scope.

Lemma tokens_stop lines long rest :
  forallb fits lines = true -> fits long = false ->
  tokens (lines ++ long :: rest) = List.map dropCR lines.
Proof.
  induction lines as [|l lines IH]; intros H Hl; cbn [app tokens List.map].
  - by rewrite Hl.
  - cbn [forallb] in H. apply andb_prop in H as [H1 H2]. by rewrite H1, IH.
Qed.

(** X22. A line of 65536 bytes or more ends the scan of the snippet: when
    no line before it declares the entry point, [processScript] reports
    that the entry point is missing, whatever follows the long line. *)
Theorem processScript_long_line (lines : list string) (long rest : string) :
  forallb (fun l => negb (hasByte (byte 10) l) && fits l
                    && negb (HasPrefix (TrimSpace (dropCR l)) "func goscript(")) lines = true ->
  hasByte (byte 10) long = false ->
  fits long = false ->
  processScript (unlines lines ++ long ++ nl ++ rest)
  = Some (0, [], Some (errorString "missing func goscript")).
Proof.
  intros H Hn Hf. unfold processScript, Scan.
  assert (H1 : forallb (fun l => negb (hasByte (byte 10) l)) lines = true).
  { apply forallb_forall. intros l Hl. rewrite forallb_forall in H. specialize (H l Hl).
    by apply andb_prop in H as [H _]; apply andb_prop in H as [H _]. }
  assert (H2 : forallb fits lines = true).
  { apply forallb_forall. intros l Hl. rewrite forallb_forall in H. specialize (H l Hl).
    by apply andb_prop in H as [H _]; apply andb_prop in H as [_ H]. }
  rewrite (rawLines_unlines _ _ H1), (rawLines_line long _ Hn), (tokens_stop _ _ _ H2 Hf).
  apply scriptLoop_missing. intros l Hl. apply in_map_iff in Hl as (x & <- & Hx).
  rewrite forallb_forall in H. specialize (H x Hx).
  apply andb_prop in H as [_ H]. by apply negb_true_iff in H.
Qed.

Lemma processScript_long_line_witness :
  let rest := ("func goscript() (interface{}, error) { return 7, nil }" ++ nl)%string in
  hasByte (byte 10) longLine = false
  /\ fits longLine = false
  /\ processScript rest = Some (1, [], None)
  /\ processScript (unlines ["// generated"%string] ++ longLine ++ nl ++ rest)
     = Some (0, [], Some (errorString "missing func goscript")).
Proof.
  split; [by vm_compute|]. split; [by vm_compute|]. split; [by vm_compute|].
  apply processScript_long_line; by vm_compute.
Defined.

(** X23. A line that, trimmed, is the marker never shows: the remapped
    text is that of the diagnostic text without this line, wherever the line
    stands. *)
Theorem processOutput_drops_marker
  (scriptLines : Z) (out out' : string) (pre post : list string) (line : string) :
  Scan out = pre ++ line :: post ->
  Scan out' = pre ++ post ->
  TrimSpace line = marker ->
  processOutput scriptLines out = processOutput scriptLines out'.
Proof.
  intros Ho Ho' Hm. rewrite !processOutput_remap. unfold remap.
  rewrite Ho, Ho', !omap_app. cbn [omap list_omap].
  assert (Hd : remapLine scriptLines line = None).
  { unfold remapLine. by rewrite Hm, String.eqb_refl. }
  by rewrite Hd.
Qed.

Lemma processOutput_drops_marker_witness :
  let out := ("exit status 2" ++ nl ++ "  " ++ marker ++ tab ++ nl ++ "done" ++ nl)%string in
  let out' := ("exit status 2" ++ nl ++ "done" ++ nl)%string in
  Scan out = ["exit status 2"%string] ++ ("  " ++ marker ++ tab)%string :: ["done"%string]
  /\ Scan out' = ["exit status 2"%string] ++ ["done"%string]
  /\ TrimSpace ("  " ++ marker ++ tab) = marker
  /\ processOutput 3 out = processOutput 3 out'.
Proof.
  split; [by vm_compute|]. split; [by vm_compute|]. split; [by vm_compute|].
  apply (processOutput_drops_marker 3 _ _ ["exit status 2"%string] ["done"%string]
           ("  " ++ marker ++ tab)%string); by vm_compute.
Defined.

End ExtrasScanner.

(** ** Reports beyond the snippet *)

Section Scaffolding.
Local Open Scope list_scope.



(** The same with a report whose path has a colon before the name of the
    generated file: what follows the first colon is no number, and the
    report of line 30 is shown. *)
Example processOutput_keeps_prefixed :
  numbered_spec drive30 = Some 30
  /\ sub 30 scriptStartLine = 18
  /\ embedded drive30 = None
  /\ processOutput 4 drive30
     = Some "goscript:\Temp\goscript1\goscript.go:30:2: undefined: x"%string.
Proof. repeat split; by vm_compute. Qed.



End Scaffolding.
